(** * A line-oriented key-value store server: embedding and properties

    Shallow embedding of [server/main.go]: the in-memory store
    ([put], [get], [del], [size]), the statistics counters ([incr],
    [snapshotStats]) and the body of the per-connection loop of
    [handleConn].  Go strings are byte sequences and are modelled by
    [string] (a list of 8-bit [ascii]); the [int64] counters are integers
    with their two's-complement wrap-around written out; the map is a
    [gmap string string].  Locks are not modelled: every operation is
    taken at its linearisation point, one request after the other. *)

From Stdlib Require Import ZArith Lia Bool Ascii String.
From stdpp Require Import base gmap strings list.

Local Open Scope Z_scope.

(** ** Bytes and the string helpers of the Go library that the handler calls *)

Definition byteZ (c : ascii) : Z := Z.of_N (N_of_ascii c).

Definition LF : ascii := "010"%char.
Definition CR : ascii := "013"%char.

(** The string [s] followed by a line feed, as in the Go literal ["...\n"]. *)
Definition nl (s : string) : string := s +:+ String LF EmptyString.

(** The cutset ["\r\n"]. *)
Definition crlf : string := String CR (String LF EmptyString).

Definition inCutset (cutset : string) (c : ascii) : bool :=
  existsb (Ascii.eqb c) (list_ascii_of_string cutset).

(** [strings.TrimRight] for a cutset of ASCII bytes: the trailing bytes of
    [s] that belong to the cutset are removed. *)
Fixpoint TrimRight (s cutset : string) : string :=
  match s with
  | EmptyString => EmptyString
  | String c s' =>
      match TrimRight s' cutset with
      | EmptyString =>
          if inCutset cutset c then EmptyString else String c EmptyString
      | t => String c t
      end
  end.

(** The table [asciiSpace] of package [strings]. *)
Definition asciiSpace (b : Z) : bool :=
  (b =? 9) || (b =? 10) || (b =? 11) || (b =? 12) || (b =? 13) || (b =? 32).

(** [unicode.IsSpace]: the Latin-1 cases, then the [White_Space] table. *)
Definition IsSpace (r : Z) : bool :=
  if r <=? 255 then
    (r =? 9) || (r =? 10) || (r =? 11) || (r =? 12) || (r =? 13) || (r =? 32)
    || (r =? 133) || (r =? 160)
  else
    (r =? 5760) || ((8192 <=? r) && (r <=? 8202)) || (r =? 8232) || (r =? 8233)
    || (r =? 8239) || (r =? 8287) || (r =? 12288).

Definition RuneError : Z := 65533.

(** The table [first] of package [utf8], for a lead byte of a multi-byte
    sequence: the length of the sequence and the accepted range of its
    second byte; [None] for a byte that cannot start a sequence. *)
Definition firstInfo (b0 : Z) : option (nat * Z * Z) :=
  if (194 <=? b0) && (b0 <=? 223) then Some (2%nat, 128, 191)
  else if b0 =? 224 then Some (3%nat, 160, 191)
  else if (225 <=? b0) && (b0 <=? 236) then Some (3%nat, 128, 191)
  else if b0 =? 237 then Some (3%nat, 128, 159)
  else if (238 <=? b0) && (b0 <=? 239) then Some (3%nat, 128, 191)
  else if b0 =? 240 then Some (4%nat, 144, 191)
  else if (241 <=? b0) && (b0 <=? 243) then Some (4%nat, 128, 191)
  else if b0 =? 244 then Some (4%nat, 128, 143)
  else None.

Definition isCont (b : Z) : bool := (128 <=? b) && (b <=? 191).

(** [utf8.DecodeRuneInString]: the first rune of [s] and its width in
    bytes; an invalid or truncated sequence decodes to [RuneError] with
    width 1. *)
Definition DecodeRuneInString (s : string) : Z * nat :=
  match s with
  | EmptyString => (RuneError, 0%nat)
  | String c0 t0 =>
      let b0 := byteZ c0 in
      if b0 <? 128 then (b0, 1%nat)
      else
        match firstInfo b0 with
        | None => (RuneError, 1%nat)
        | Some (sz, lo, hi) =>
            if (String.length s <? sz)%nat then (RuneError, 1%nat)
            else
              match t0 with
              | EmptyString => (RuneError, 1%nat)
              | String c1 t1 =>
                  let b1 := byteZ c1 in
                  if (b1 <? lo) || (hi <? b1) then (RuneError, 1%nat)
                  else if (sz <=? 2)%nat then
                    (Z.lor (Z.shiftl (Z.land b0 31) 6) (Z.land b1 63), 2%nat)
                  else
                    match t1 with
                    | EmptyString => (RuneError, 1%nat)
                    | String c2 t2 =>
                        let b2 := byteZ c2 in
                        if negb (isCont b2) then (RuneError, 1%nat)
                        else if (sz <=? 3)%nat then
                          (Z.lor (Z.lor (Z.shiftl (Z.land b0 15) 12)
                                        (Z.shiftl (Z.land b1 63) 6))
                                 (Z.land b2 63), 3%nat)
                        else
                          match t2 with
                          | EmptyString => (RuneError, 1%nat)
                          | String c3 _ =>
                              let b3 := byteZ c3 in
                              if negb (isCont b3) then (RuneError, 1%nat)
                              else
                                (Z.lor (Z.lor (Z.lor
                                   (Z.shiftl (Z.land b0 7) 18)
                                   (Z.shiftl (Z.land b1 63) 12))
                                   (Z.shiftl (Z.land b2 63) 6))
                                   (Z.land b3 63), 4%nat)
                          end
                    end
              end
        end
  end.

(** The iteration [for _, r := range s]: the runes of [s] in order, each
    with the bytes it was decoded from. *)
Fixpoint runes (s : string) : list (Z * string) :=
  match s with
  | EmptyString => []
  | String c0 s1 =>
      let '(r, n) := DecodeRuneInString s in
      match n, s1 with
      | 2%nat, String c1 s2 =>
          (r, String c0 (String c1 EmptyString)) :: runes s2
      | 3%nat, String c1 (String c2 s3) =>
          (r, String c0 (String c1 (String c2 EmptyString))) :: runes s3
      | 4%nat, String c1 (String c2 (String c3 s4)) =>
          (r, String c0 (String c1 (String c2 (String c3 EmptyString))))
            :: runes s4
      | _, _ => (r, String c0 EmptyString) :: runes s1
      end
  end.

(** The fields of a sequence of pieces, each flagged as a separator or
    not: maximal runs of pieces that are not separators, concatenated.
    [cur] is the field being read, if any. *)
Fixpoint splitFields (ps : list (bool * string)) (cur : option string)
  : list string :=
  match ps with
  | [] => match cur with Some w => [w] | None => [] end
  | (true, _) :: ps' =>
      match cur with
      | Some w => w :: splitFields ps' None
      | None => splitFields ps' None
      end
  | (false, b) :: ps' =>
      splitFields ps'
        (Some (match cur with Some w => w +:+ b | None => b end))
  end.

Definition isASCII (s : string) : bool :=
  forallb (fun c => byteZ c <? 128) (list_ascii_of_string s).

(** [strings.FieldsFunc s unicode.IsSpace]. *)
Definition FieldsFunc (s : string) (f : Z -> bool) : list string :=
  splitFields (map (fun p => (f (fst p), snd p)) (runes s)) None.

(** [strings.Fields]: the byte-wise path for a string of ASCII bytes, and
    [FieldsFunc] with [unicode.IsSpace] otherwise. *)
Definition Fields (s : string) : list string :=
  if isASCII s then
    splitFields
      (map (fun c => (asciiSpace (byteZ c), String c EmptyString))
           (list_ascii_of_string s)) None
  else FieldsFunc s IsSpace.

Definition upperByte (c : ascii) : ascii :=
  let b := byteZ c in
  if (97 <=? b) && (b <=? 122) then ascii_of_N (Z.to_N (b - 32)) else c.

Fixpoint mapBytes (f : ascii -> ascii) (s : string) : string :=
  match s with
  | EmptyString => EmptyString
  | String c s' => String (f c) (mapBytes f s')
  end.

(** ** The store *)

Definition Version : string := "KV/1.0".
Definition DefaultAddr : string := "127.0.0.1:5050".

(** [type store struct]: the map; the lock has no counterpart here. *)
Record store := { data : gmap string string }.

Definition newStore : store := {| data := ∅ |}.

(** The methods have a pointer receiver: each returns its results and the
    store it leaves behind. *)
Module Store.

Definition put (k v : string) (s : store) : bool * store :=
  let existed := bool_decide (is_Some (data s !! k)) in
  let s' := {| data := <[k := v]> (data s) |} in
  (negb existed, s').

Definition get (k : string) (s : store) : (string * bool) * store :=
  match data s !! k with
  | Some v => ((v, true), s)
  | None => ((EmptyString, false), s)
  end.

Definition del (k : string) (s : store) : bool * store :=
  match data s !! k with
  | Some _ => (true, {| data := delete k (data s) |})
  | None => (false, s)
  end.

Definition size (s : store) : Z * store :=
  (Z.of_nat (base.size (data s)), s).

End Store.

(** ** Statistics *)

(** [type stats struct]; [StartTime] is kept as an opaque instant. *)
Record stats := {
  StartTime : Z;
  TotalConns : Z;
  ActiveConns : Z;
  ReqCount : Z;
  PutCount : Z;
  GetCount : Z;
  DelCount : Z
}.

(** [type server struct], without its mutex. *)
Record server := {
  sv_addr : string;
  sv_store : store;
  sv_stats : stats
}.

(** [newServer addr], started at instant [now]. *)
Definition newServer (addr : string) (now : Z) : server :=
  {| sv_addr := addr;
     sv_store := newStore;
     sv_stats := {| StartTime := now; TotalConns := 0; ActiveConns := 0;
                    ReqCount := 0; PutCount := 0; GetCount := 0;
                    DelCount := 0 |} |}.

(** The [*int64] arguments that [incr] is called with. *)
Inductive counter :=
  | FTotalConns | FActiveConns | FReqCount | FPutCount | FGetCount | FDelCount.

Definition readCounter (f : counter) (st : stats) : Z :=
  match f with
  | FTotalConns => TotalConns st
  | FActiveConns => ActiveConns st
  | FReqCount => ReqCount st
  | FPutCount => PutCount st
  | FGetCount => GetCount st
  | FDelCount => DelCount st
  end.

Definition writeCounter (f : counter) (x : Z) (st : stats) : stats :=
  {| StartTime := StartTime st;
     TotalConns := match f with FTotalConns => x | _ => TotalConns st end;
     ActiveConns := match f with FActiveConns => x | _ => ActiveConns st end;
     ReqCount := match f with FReqCount => x | _ => ReqCount st end;
     PutCount := match f with FPutCount => x | _ => PutCount st end;
     GetCount := match f with FGetCount => x | _ => GetCount st end;
     DelCount := match f with FDelCount => x | _ => DelCount st end |}.

(** Addition on [int64]: the sum wraps around modulo [2^64]. *)
Definition wrap64 (z : Z) : Z := (z + 2 ^ 63) mod 2 ^ 64 - 2 ^ 63.

(** [func (sv *server) incr(field *int64, delta int64)]. *)
Definition incr (field : counter) (delta : Z) (sv : server) : server :=
  {| sv_addr := sv_addr sv;
     sv_store := sv_store sv;
     sv_stats :=
       writeCounter field (wrap64 (readCounter field (sv_stats sv) + delta))
         (sv_stats sv) |}.

(** The values stored in the [map[string]any] of a snapshot. *)
Inductive any :=
  | AString (s : string)
  | AInt64 (n : Z)
  | AInt (n : Z).

(** [func (sv *server) snapshotStats() map[string]any].  The number of
    whole seconds since [StartTime] depends on the clock and on a
    floating-point conversion: it is an input, [uptime]. *)
Definition snapshotStats (uptime : Z) (sv : server)
  : gmap string any * server :=
  let '(n, st) := Store.size (sv_store sv) in
  let sv' := {| sv_addr := sv_addr sv; sv_store := st;
                sv_stats := sv_stats sv |} in
  (list_to_map
     [ ("version"%string, AString Version);
       ("uptime_sec"%string, AInt uptime);
       ("total_conns"%string, AInt64 (TotalConns (sv_stats sv)));
       ("active_conns"%string, AInt64 (ActiveConns (sv_stats sv)));
       ("req_count"%string, AInt64 (ReqCount (sv_stats sv)));
       ("put_count"%string, AInt64 (PutCount (sv_stats sv)));
       ("get_count"%string, AInt64 (GetCount (sv_stats sv)));
       ("del_count"%string, AInt64 (DelCount (sv_stats sv)));
       ("keys"%string, AInt n) ],
   sv').

(** How an iteration of the connection loop ends: [continue] (or falling
    out of the [switch]) reads the next line, [return] leaves the handler. *)
Inductive flow := Continue | Return.

Definition withStore (sv : server) (st : store) : server :=
  {| sv_addr := sv_addr sv; sv_store := st; sv_stats := sv_stats sv |}.

(** Instances of the two library functions that the handler is
    parametrised by, for running it on sample requests: requests made of
    ASCII bytes never reach the first, and no property below reads the
    text that the second renders. *)
Definition upperUnmapped (s : string) : string := s.
Definition marshalBlank (m : gmap string any) : string := EmptyString.

Section Server.

(** [strings.Map(unicode.ToUpper, s)], which [strings.ToUpper] falls back
    to for a string with a byte outside ASCII: the case tables of
    package [unicode] are not part of the repository. *)
Variable unicodeUpper : string -> string.

(** [json.Marshal] on a snapshot. *)
Variable jsonMarshal : gmap string any -> string.

(** [strings.ToUpper]. *)
Definition ToUpper (s : string) : string :=
  if isASCII s then mapBytes upperByte s else unicodeUpper s.

(** One iteration of the loop of [handleConn] on [line], the result of a
    successful [ReadString('\n')]: the server afterwards, the responses
    written to the connection and how the iteration ends.  [uptime] is
    what the clock gives, should the line ask for statistics. *)
Definition handleLine (uptime : Z) (sv : server) (line : string)
  : server * list string * flow :=
  let line := TrimRight line crlf in
  if String.eqb line EmptyString then (sv, [], Continue)
  else
    let sv := incr FReqCount 1 sv in
    let toks := Fields line in
    if (length toks <? 2)%nat then (sv, [nl "400 BAD_REQUEST"], Continue)
    else if negb (String.eqb (nth 0 toks EmptyString) Version) then
      (sv, [nl "426 UPGRADE_REQUIRED"], Continue)
    else
      let cmd := ToUpper (nth 1 toks EmptyString) in
      if String.eqb cmd "PUT" then
        if (length toks <? 4)%nat then
          (sv, [nl "400 BAD_REQUEST"], Continue)
        else
          let key := nth 2 toks EmptyString in
          let value := nth 3 toks EmptyString in
          let '(created, st) := Store.put key value (sv_store sv) in
          let sv := incr FPutCount 1 (withStore sv st) in
          if created then (sv, [nl "201 CREATED"], Continue)
          else (sv, [nl "200 OK"], Continue)
      else if String.eqb cmd "GET" then
        if negb (length toks =? 3)%nat then
          (sv, [nl "400 BAD_REQUEST"], Continue)
        else
          let key := nth 2 toks EmptyString in
          let '((val, ok), st) := Store.get key (sv_store sv) in
          let sv := withStore sv st in
          if ok then
            let sv := incr FGetCount 1 sv in
            (sv, [nl ("200 OK " +:+ val)], Continue)
          else (sv, [nl "404 NOT_FOUND"], Continue)
      else if String.eqb cmd "DEL" then
        if negb (length toks =? 3)%nat then
          (sv, [nl "400 BAD_REQUEST"], Continue)
        else
          let key := nth 2 toks EmptyString in
          let '(deleted, st) := Store.del key (sv_store sv) in
          let sv := withStore sv st in
          if deleted then
            let sv := incr FDelCount 1 sv in
            (sv, [nl "204 NO_CONTENT"], Continue)
          else (sv, [nl "404 NOT_FOUND"], Continue)
      else if String.eqb cmd "STATS" then
        if negb (length toks =? 2)%nat then
          (sv, [nl "400 BAD_REQUEST"], Continue)
        else
          let '(snap, sv) := snapshotStats uptime sv in
          let payload := jsonMarshal snap in
          (sv, [nl ("200 OK " +:+ payload)], Continue)
      else if String.eqb cmd "QUIT" then
        (sv, [nl "200 OK bye"], Return)
      else (sv, [nl "400 BAD_REQUEST"], Continue).

(** The loop of [handleConn] over the lines that [ReadString] returns,
    each with the clock's reading when it is handled; the end of the
    list is the read error that ends the connection. *)
Fixpoint connLoop (reqs : list (Z * string)) (sv : server)
  : server * list string :=
  match reqs with
  | [] => (sv, [])
  | (uptime, line) :: rest =>
      let '(sv', out, fl) := handleLine uptime sv line in
      match fl with
      | Return => (sv', out)
      | Continue =>
          let '(sv'', out') := connLoop rest sv' in (sv'', out ++ out')
      end
  end.

(** [func (sv *server) handleConn(c net.Conn)]: the two counters of
    connections go up, the loop runs, and the deferred function takes
    the connection out of the active ones. *)
Definition handleConn (reqs : list (Z * string)) (sv : server)
  : server * list string :=
  let sv := incr FTotalConns 1 sv in
  let sv := incr FActiveConns 1 sv in
  let '(sv, out) := connLoop reqs sv in
  (incr FActiveConns (-1) sv, out).

(** ** Vocabulary of the properties *)

(** The tokens that the handler splits a received line into. *)
Definition tokensOf (line : string) : list string :=
  Fields (TrimRight line crlf).

(** A string made of white space only, as [Fields] sees it: every rune
    it decodes to satisfies [unicode.IsSpace]. *)
Definition allSpace (s : string) : bool :=
  forallb (fun p => IsSpace (fst p)) (runes s).

(** The requests that the server handles, in the order in which they
    take effect, whichever connections they come from: every line is
    handled by the loop body, and the log keeps each line with the
    responses written for it. *)
Fixpoint serve (reqs : list (Z * string)) (sv : server)
  : server * list (string * list string) :=
  match reqs with
  | [] => (sv, [])
  | (uptime, line) :: rest =>
      let '(sv', out, _) := handleLine uptime sv line in
      let '(sv'', log) := serve rest sv' in
      (sv'', (line, out) :: log)
  end.

(** The command and the key named by a line. *)
Definition cmdOf (line : string) : string :=
  ToUpper (nth 1 (tokensOf line) EmptyString).

Definition keyOf (line : string) : string :=
  nth 2 (tokensOf line) EmptyString.

(** [strings.HasPrefix s p]. *)
Fixpoint HasPrefix (s p : string) {struct p} : bool :=
  match p with
  | EmptyString => true
  | String a p' =>
      match s with
      | EmptyString => false
      | String b s' => Ascii.eqb a b && HasPrefix s' p'
      end
  end.

Definition answered (out : list string) (r : string) : bool :=
  match out with
  | [r'] => String.eqb r' r
  | _ => false
  end.

(** Outcomes, read off a log entry: a PUT that was answered
    [201 CREATED] or [200 OK], a DEL answered [204 NO_CONTENT]. *)
Definition isPutOk (e : string * list string) : bool :=
  String.eqb (cmdOf (fst e)) "PUT"
  && (answered (snd e) (nl "201 CREATED") || answered (snd e) (nl "200 OK")).

Definition isDelHit (e : string * list string) : bool :=
  String.eqb (cmdOf (fst e)) "DEL" && answered (snd e) (nl "204 NO_CONTENT").

Definition countIf {A} (p : A -> bool) (l : list A) : Z :=
  Z.of_nat (length (List.filter p l)).

(** ** Vocabulary of the further properties *)

(** A line that the handler does not skip. *)
Definition nonBlank (line : string) : bool :=
  negb (String.eqb (TrimRight line crlf) EmptyString).

(** The value named by a PUT line. *)
Definition valueOf (line : string) : string :=
  nth 3 (tokensOf line) EmptyString.

(** The map that a log leads to, starting from [m]: a successful PUT
    binds its key to its value, a DEL that hits removes its key. *)
Fixpoint replay (log : list (string * list string)) (m : gmap string string)
  : gmap string string :=
  match log with
  | [] => m
  | e :: log' =>
      replay log'
        (if isPutOk e then <[ keyOf (fst e) := valueOf (fst e) ]> m
         else if isDelHit e then delete (keyOf (fst e)) m
         else m)
  end.

(** What handling [line] leaves alone, and what it does to the request
    counter, to the map and to the connection; a PUT that succeeds has
    its four tokens. *)
Definition effectSpec (sv : server) (line : string)
    (res : server * list string * flow) : Prop :=
  let sv' := fst (fst res) in
  let out := snd (fst res) in
  sv_addr sv' = sv_addr sv
  ∧ StartTime (sv_stats sv') = StartTime (sv_stats sv)
  ∧ TotalConns (sv_stats sv') = TotalConns (sv_stats sv)
  ∧ ActiveConns (sv_stats sv') = ActiveConns (sv_stats sv)
  ∧ ReqCount (sv_stats sv')
    = (if nonBlank line then wrap64 (ReqCount (sv_stats sv) + 1)
       else ReqCount (sv_stats sv))
  ∧ length out = (if nonBlank line then 1%nat else 0%nat)
  ∧ (snd res = Return → out = [nl "200 OK bye"])
  ∧ data (sv_store sv')
    = (if isPutOk (line, out)
       then <[ keyOf line := valueOf line ]> (data (sv_store sv))
       else if isDelHit (line, out)
            then delete (keyOf line) (data (sv_store sv))
            else data (sv_store sv))
  ∧ (isPutOk (line, out) = true → (4 ≤ length (tokensOf line))%nat).

(** A string with no byte of ASCII white space (tab, line feed, vertical
    tab, form feed, carriage return, space). *)
Definition noSpaceBytes (s : string) : bool :=
  forallb (fun c => negb (asciiSpace (byteZ c))) (list_ascii_of_string s).

(** A token as the wire can carry it: not empty and free of ASCII white
    space. *)
Definition cleanToken (t : string) : bool :=
  negb (String.eqb t EmptyString) && noSpaceBytes t.

(** Every key and every value of the map is such a token. *)
Definition cleanStore (m : gmap string string) : Prop :=
  ∀ k v : string, m !! k = Some v → cleanToken k = true ∧ cleanToken v = true.

(** A string that [Fields] keeps whole: not empty, and none of its runes
    is white space. *)
Definition isField (t : string) : bool :=
  negb (String.eqb t EmptyString)
  && forallb (fun p => negb (IsSpace (fst p))) (runes t).

(** Bytes that are all outside ASCII. *)
Definition highBytes (s : string) : bool :=
  forallb (fun c => 128 <=? byteZ c) (list_ascii_of_string s).

(** The concatenation of a list of strings. *)
Fixpoint concatStrings (l : list string) : string :=
  match l with
  | [] => EmptyString
  | s :: l' => s +:+ concatStrings l'
  end.

(** ** The byte stream of a connection, and the client's requests *)

(** The results of the successive calls [ReadString('\n')] on the bytes
    that a connection delivers before it is closed: each holds the bytes
    up to and including a line feed.  The bytes after the last line feed
    come with the read error, on which the handler returns: they are in
    no result.  [cur] holds the bytes of the line being read. *)
Fixpoint readLines (input cur : string) : list string :=
  match input with
  | EmptyString => []
  | String c rest =>
      if Ascii.eqb c LF then
        (cur +:+ String c EmptyString) :: readLines rest EmptyString
      else readLines rest (cur +:+ String c EmptyString)
  end.

(** [handleConn] on the bytes of a connection; [clock i] is the uptime
    that the clock gives while line [i] is handled. *)
Definition handleStream (clock : nat → Z) (input : string) (sv : server)
  : server * list string :=
  handleConn (imap (fun i line => (clock i, line)) (readLines input EmptyString))
    sv.

Definition noLF (s : string) : bool :=
  forallb (fun c => negb (Ascii.eqb c LF)) (list_ascii_of_string s).

(** [strings.TrimSpace], of the Go library. *)
Variable TrimSpace : string → string.

(** The body of the input loop of the client ([client/main.go]) on the
    text of one line of its standard input: nothing is sent for a line
    that is empty once trimmed, and the trimmed line is sent after the
    version and a space, with a line feed, otherwise. *)
Definition clientMsg (text : string) : option string :=
  let line := TrimSpace text in
  if String.eqb line EmptyString then None
  else Some (nl (Version +:+ " " +:+ line)).

(** ** Requests and their tally, from the lines alone *)

(** What a line asks for, as the protocol reads it: a PUT with its key
    and value (the version token, the command and at least two
    arguments), a GET or a DEL with its key (exactly one argument), or
    anything else (blank and malformed lines, wrong version or arity,
    STATS, QUIT, unknown commands). *)
Inductive request :=
  | RPut (k v : string)
  | RGet (k : string)
  | RDel (k : string)
  | ROther.

Definition requestOf (line : string) : request :=
  match tokensOf line with
  | t0 :: t1 :: args =>
      if String.eqb t0 Version then
        if String.eqb (ToUpper t1) "PUT" then
          match args with
          | k :: v :: _ => RPut k v
          | _ => ROther
          end
        else if String.eqb (ToUpper t1) "GET" then
          match args with
          | [k] => RGet k
          | _ => ROther
          end
        else if String.eqb (ToUpper t1) "DEL" then
          match args with
          | [k] => RDel k
          | _ => ROther
          end
        else ROther
      else ROther
  | _ => ROther
  end.

(** The bookkeeping that the specification asks for, kept on the
    requests alone: the keys that are live (put, and not deleted since),
    the number of PUTs, the number of GETs of a live key and the number
    of DELs of a live key. *)
Record tally := {
  t_live : gset string;
  t_puts : Z;
  t_gets : Z;
  t_dels : Z
}.

Definition noTally : tally :=
  {| t_live := ∅; t_puts := 0; t_gets := 0; t_dels := 0 |}.

Definition tallyStep (t : tally) (r : request) : tally :=
  match r with
  | RPut k _ =>
      {| t_live := {[ k ]} ∪ t_live t; t_puts := t_puts t + 1;
         t_gets := t_gets t; t_dels := t_dels t |}
  | RGet k =>
      if bool_decide (k ∈ t_live t) then
        {| t_live := t_live t; t_puts := t_puts t;
           t_gets := t_gets t + 1; t_dels := t_dels t |}
      else t
  | RDel k =>
      if bool_decide (k ∈ t_live t) then
        {| t_live := t_live t ∖ {[ k ]}; t_puts := t_puts t;
           t_gets := t_gets t; t_dels := t_dels t + 1 |}
      else t
  | ROther => t
  end.

Definition tallyFrom (t : tally) (lines : list string) : tally :=
  fold_left tallyStep (map requestOf lines) t.

Definition tallyOf (lines : list string) : tally := tallyFrom noTally lines.

(** A well-formed PUT in the words of the specification: exactly four
    tokens, the version, the command PUT, a key and a value. *)
Definition specWellFormedPut (line : string) : bool :=
  match tokensOf line with
  | [t0; t1; _; _] => String.eqb t0 Version && String.eqb (ToUpper t1) "PUT"
  | _ => false
  end.

(** The server and the tally agree: same live keys, and each counter is
    the tally's number as an [int64]. *)
Definition agrees (sv : server) (t : tally) : Prop :=
  dom (data (sv_store sv)) = t_live t
  ∧ PutCount (sv_stats sv) = wrap64 (t_puts t)
  ∧ GetCount (sv_stats sv) = wrap64 (t_gets t)
  ∧ DelCount (sv_stats sv) = wrap64 (t_dels t).

(** ** The string functions on sample inputs *)

Example TrimRight_crlf :
  TrimRight (String "a" (String CR (String "b" (String CR (String CR
    (String LF EmptyString)))))) crlf
  = String "a" (String CR (String "b" EmptyString)).
Proof. reflexivity. Qed.

Example Fields_ascii :
  Fields (String "009" " KV/1.0  put k   v ") = ["KV/1.0"; "put"; "k"; "v"].
Proof. reflexivity. Qed.

(** U+20AC is encoded on the three bytes 226, 130, 172. *)
Example DecodeRune_euro :
  DecodeRuneInString (String "226" (String "130" (String "172" "x")))
  = (8364, 3%nat).
Proof. reflexivity. Qed.

(** A no-break space (194, 160) and an ideographic space (227, 128, 128)
    separate fields; a byte that is not valid UTF-8 (255) does not. *)
Example Fields_unicode :
  Fields (String "a" (String "194" (String "160" (String "b" (String "227"
    (String "128" (String "128" (String "c" (String "255" "d")))))))))
  = ["a"; "b"; String "c" (String "255" "d")].
Proof. reflexivity. Qed.

Example ToUpper_ascii : ToUpper "Stats" = "STATS".
Proof. reflexivity. Qed.

(** ** Lemmas on the string functions *)

Lemma String_eqb_neq (a b : string) : a ≠ b → String.eqb a b = false.
Proof. intros H. apply String.eqb_neq. exact H. Qed.

Lemma nonblank_eqb (s : string) :
  s ≠ EmptyString → String.eqb s EmptyString = false.
Proof. apply String_eqb_neq. Qed.

Lemma tokens_nonblank (line t : string) (ts : list string) :
  tokensOf line = t :: ts →
  String.eqb (TrimRight line crlf) EmptyString = false.
Proof.
  unfold tokensOf. destruct (TrimRight line crlf) as [|c s]; [|reflexivity].
  discriminate.
Qed.

Lemma splitFields_separators (ps : list (bool * string)) :
  forallb fst ps = true → splitFields ps None = [].
Proof.
  induction ps as [|[b w] ps IH]; [reflexivity|].
  cbn [forallb fst]. intros H. apply andb_true_iff in H as [Hb Hps].
  subst b. cbn [splitFields]. apply IH, Hps.
Qed.

Lemma asciiSpace_IsSpace (b : Z) : b < 128 → asciiSpace b = IsSpace b.
Proof.
  intros Hb. unfold asciiSpace, IsSpace.
  replace (b <=? 255) with true by (symmetry; apply Z.leb_le; lia).
  replace (b =? 133) with false by (symmetry; apply Z.eqb_neq; lia).
  replace (b =? 160) with false by (symmetry; apply Z.eqb_neq; lia).
  rewrite !orb_false_r. reflexivity.
Qed.

(** On a string of ASCII bytes, the runes are the bytes. *)
Lemma runes_ascii (s : string) :
  isASCII s = true →
  runes s
  = map (fun c => (byteZ c, String c EmptyString)) (list_ascii_of_string s).
Proof.
  induction s as [|c s IH]; [reflexivity|].
  unfold isASCII. cbn [list_ascii_of_string forallb].
  intros H. apply andb_true_iff in H as [Hc Hs].
  cbn [runes DecodeRuneInString map]. rewrite Hc.
  rewrite <- (IH Hs). destruct s; reflexivity.
Qed.

Lemma Fields_allSpace (s : string) : allSpace s = true → Fields s = [].
Proof.
  unfold allSpace, Fields, FieldsFunc. intros H.
  destruct (isASCII s) eqn:A.
  - rewrite (runes_ascii s A) in H. apply splitFields_separators.
    unfold isASCII in A. revert A H.
    induction (list_ascii_of_string s) as [|c l IH]; [reflexivity|].
    cbn [forallb map fst]. intros A H.
    apply andb_true_iff in A as [Ac Al]. apply andb_true_iff in H as [Hc Hl].
    rewrite (asciiSpace_IsSpace _ (proj1 (Z.ltb_lt _ _) Ac)), Hc.
    apply IH; assumption.
  - apply splitFields_separators.
    induction (runes s) as [|[r w] l IH]; [reflexivity|].
    cbn [forallb map fst] in *. apply andb_true_iff in H as [Hr Hl].
    rewrite Hr. apply IH, Hl.
Qed.

(** ** The loop body, case by case *)

(** Unfolds the loop body on a line whose tokens are known. *)
Ltac run_line H :=
  unfold handleLine;
  rewrite (tokens_nonblank _ _ _ H);
  unfold tokensOf in H; rewrite H;
  cbn [length nth Nat.ltb Nat.leb Nat.eqb negb];
  rewrite ?String.eqb_refl; cbn [negb].

Lemma handle_blank (uptime : Z) (sv : server) (line : string) :
  TrimRight line crlf = EmptyString →
  handleLine uptime sv line = (sv, [], Continue).
Proof. intros H. unfold handleLine. rewrite H. reflexivity. Qed.

Lemma handle_few (uptime : Z) (sv : server) (line : string) :
  TrimRight line crlf ≠ EmptyString →
  (length (tokensOf line) < 2)%nat →
  handleLine uptime sv line =
    (incr FReqCount 1 sv, [nl "400 BAD_REQUEST"], Continue).
Proof.
  intros Hne Hlen. unfold handleLine, tokensOf in *.
  rewrite (nonblank_eqb _ Hne).
  apply Nat.ltb_lt in Hlen. rewrite Hlen. reflexivity.
Qed.

Lemma handle_version (uptime : Z) (sv : server) (line t0 t1 : string)
      (args : list string) :
  tokensOf line = t0 :: t1 :: args →
  t0 ≠ Version →
  handleLine uptime sv line =
    (incr FReqCount 1 sv, [nl "426 UPGRADE_REQUIRED"], Continue).
Proof.
  intros Ht Hv. run_line Ht. rewrite (String_eqb_neq _ _ Hv). reflexivity.
Qed.

Lemma handle_put (uptime : Z) (sv : server) (line t1 k v : string)
      (extra : list string) :
  tokensOf line = Version :: t1 :: k :: v :: extra →
  ToUpper t1 = "PUT"%string →
  handleLine uptime sv line =
    (incr FPutCount 1
       (withStore (incr FReqCount 1 sv)
          {| data := <[k := v]> (data (sv_store sv)) |}),
     [nl (match data (sv_store sv) !! k with
          | None => "201 CREATED"
          | Some _ => "200 OK"
          end)],
     Continue).
Proof.
  intros Ht Hc. run_line Ht. rewrite Hc. cbn [String.eqb Ascii.eqb Bool.eqb].
  unfold Store.put. cbn [sv_store incr withStore data].
  destruct (data (sv_store sv) !! k) as [w|] eqn:E.
  - rewrite bool_decide_eq_true_2 by eauto. reflexivity.
  - rewrite bool_decide_eq_false_2 by (intros [? ?]; discriminate).
    reflexivity.
Qed.

Lemma handle_get (uptime : Z) (sv : server) (line t1 k : string) :
  tokensOf line = [Version; t1; k] →
  ToUpper t1 = "GET"%string →
  handleLine uptime sv line =
    match data (sv_store sv) !! k with
    | Some v =>
        (incr FGetCount 1 (incr FReqCount 1 sv),
         [nl ("200 OK " +:+ v)], Continue)
    | None => (incr FReqCount 1 sv, [nl "404 NOT_FOUND"], Continue)
    end.
Proof.
  intros Ht Hc. run_line Ht. rewrite Hc. cbn [String.eqb Ascii.eqb Bool.eqb].
  destruct sv as [a st ss]. unfold Store.get.
  cbn [sv_store incr withStore data].
  destruct (data st !! k) as [w|] eqn:E; reflexivity.
Qed.

Lemma handle_del (uptime : Z) (sv : server) (line t1 k : string) :
  tokensOf line = [Version; t1; k] →
  ToUpper t1 = "DEL"%string →
  handleLine uptime sv line =
    match data (sv_store sv) !! k with
    | Some _ =>
        (incr FDelCount 1
           (withStore (incr FReqCount 1 sv)
              {| data := delete k (data (sv_store sv)) |}),
         [nl "204 NO_CONTENT"], Continue)
    | None => (incr FReqCount 1 sv, [nl "404 NOT_FOUND"], Continue)
    end.
Proof.
  intros Ht Hc. run_line Ht. rewrite Hc. cbn [String.eqb Ascii.eqb Bool.eqb].
  destruct sv as [a st ss]. unfold Store.del.
  cbn [sv_store incr withStore data].
  destruct (data st !! k) as [w|] eqn:E; reflexivity.
Qed.

Lemma handle_stats (uptime : Z) (sv : server) (line t1 : string) :
  tokensOf line = [Version; t1] →
  ToUpper t1 = "STATS"%string →
  handleLine uptime sv line =
    (incr FReqCount 1 sv,
     [nl ("200 OK " +:+
          jsonMarshal (fst (snapshotStats uptime (incr FReqCount 1 sv))))],
     Continue).
Proof.
  intros Ht Hc. run_line Ht. rewrite Hc. cbn [String.eqb Ascii.eqb Bool.eqb].
  destruct sv as [a [d] ss]. reflexivity.
Qed.

Lemma handle_quit (uptime : Z) (sv : server) (line t1 : string)
      (args : list string) :
  tokensOf line = Version :: t1 :: args →
  ToUpper t1 = "QUIT"%string →
  handleLine uptime sv line =
    (incr FReqCount 1 sv, [nl "200 OK bye"], Return).
Proof.
  intros Ht Hc. run_line Ht. rewrite Hc. reflexivity.
Qed.

(** ** What one request does to the counters and to the set of keys *)

(** Evaluates the comparisons between closed strings in the goal. *)
Ltac eval_closed :=
  repeat match goal with
    | |- context [String.eqb ?a ?b] =>
        let v := eval vm_compute in (String.eqb a b) in
        match v with
        | true => change (String.eqb a b) with true
        | false => change (String.eqb a b) with false
        end
    | |- context [HasPrefix ?a ?b] =>
        let v := eval vm_compute in (HasPrefix a b) in
        match v with
        | true => change (HasPrefix a b) with true
        | false => change (HasPrefix a b) with false
        end
    end.

(** ** Counters and keys over a sequence of requests *)

Lemma wrap64_small (z : Z) : - 2 ^ 63 ≤ z < 2 ^ 63 → wrap64 z = z.
Proof.
  intros H. unfold wrap64. rewrite Z.mod_small; lia.
Qed.

Lemma countIf_cons {A} (p : A → bool) (e : A) (l : list A) :
  countIf p (e :: l) = (if p e then 1 else 0) + countIf p l.
Proof.
  unfold countIf. cbn [List.filter]. destruct (p e); cbn [length]; lia.
Qed.

Lemma countIf_nonneg {A} (p : A → bool) (l : list A) : 0 ≤ countIf p l.
Proof. unfold countIf. lia. Qed.

(** A counter that every request either leaves alone or increments, as
    [p] says of the request's log entry, ends at its initial value plus
    the number of entries that satisfy [p], short of overflow. *)
Lemma serve_counter (f : server → Z) (p : string * list string → bool) :
  (∀ (u : Z) (sv : server) (line : string),
     f (fst (fst (handleLine u sv line)))
     = if p (line, snd (fst (handleLine u sv line)))
       then wrap64 (f sv + 1) else f sv) →
  ∀ (reqs : list (Z * string)) (sv : server),
    0 ≤ f sv →
    f sv + countIf p (snd (serve reqs sv)) < 2 ^ 63 →
    f (fst (serve reqs sv)) = f sv + countIf p (snd (serve reqs sv)).
Proof.
  intros Hstep reqs. induction reqs as [|[u line] reqs IH]; intros sv H0 Hb.
  - cbn. unfold countIf. cbn. lia.
  - cbn [serve] in *. specialize (Hstep u sv line).
    destruct (handleLine u sv line) as [[sv1 out] fl]. cbn [fst snd] in Hstep.
    specialize (IH sv1).
    destruct (serve reqs sv1) as [sv2 log]. cbn [fst snd] in *.
    rewrite countIf_cons in *. pose proof (countIf_nonneg p log).
    destruct (p (line, out)).
    + rewrite wrap64_small in Hstep by lia. rewrite IH by lia. lia.
    + rewrite IH by lia. lia.
Qed.

(** The loop of a connection handles a prefix of the lines it is sent, up
    to the first QUIT: it is [serve] on that prefix. *)
Lemma connLoop_prefix (reqs : list (Z * string)) :
  ∀ sv : server, ∃ n : nat,
    connLoop reqs sv
    = (fst (serve (take n reqs) sv),
       concat (map snd (snd (serve (take n reqs) sv)))).
Proof.
  induction reqs as [|[u line] reqs IH]; intros sv.
  - exists 0%nat. reflexivity.
  - cbn [connLoop].
    destruct (handleLine u sv line) as [[sv1 out] fl] eqn:E.
    destruct fl.
    + destruct (IH sv1) as [n Hn]. exists (S n).
      change (take (S n) ((u, line) :: reqs)) with ((u, line) :: take n reqs).
      cbn [serve]. rewrite E, Hn.
      destruct (serve (take n reqs) sv1) as [sv2 log]. reflexivity.
    + exists 1%nat. change (take 1 ((u, line) :: reqs)) with [(u, line)].
      cbn [serve]. rewrite E. cbn [fst snd map concat].
      rewrite app_nil_r. reflexivity.
Qed.

(** ** The handler against the requests *)

(** What the handler does with a line, by what the line asks for. *)
Lemma handleLine_request (uptime : Z) (sv : server) (line : string) :
  match requestOf line with
  | RPut k v =>
      fst (fst (handleLine uptime sv line))
      = incr FPutCount 1
          (withStore (incr FReqCount 1 sv)
             {| data := <[k := v]> (data (sv_store sv)) |})
  | RGet k =>
      fst (fst (handleLine uptime sv line))
      = match data (sv_store sv) !! k with
        | Some _ => incr FGetCount 1 (incr FReqCount 1 sv)
        | None => incr FReqCount 1 sv
        end
  | RDel k =>
      fst (fst (handleLine uptime sv line))
      = match data (sv_store sv) !! k with
        | Some _ =>
            incr FDelCount 1
              (withStore (incr FReqCount 1 sv)
                 {| data := delete k (data (sv_store sv)) |})
        | None => incr FReqCount 1 sv
        end
  | ROther =>
      sv_store (fst (fst (handleLine uptime sv line))) = sv_store sv
      ∧ PutCount (sv_stats (fst (fst (handleLine uptime sv line))))
        = PutCount (sv_stats sv)
      ∧ GetCount (sv_stats (fst (fst (handleLine uptime sv line))))
        = GetCount (sv_stats sv)
      ∧ DelCount (sv_stats (fst (fst (handleLine uptime sv line))))
        = DelCount (sv_stats sv)
  end.
Proof.
  unfold requestOf.
  destruct (tokensOf line) as [|t0 [|t1 args]] eqn:Ht.
  - unfold handleLine. fold (tokensOf line). rewrite Ht.
    destruct (String.eqb (TrimRight line crlf) EmptyString);
      repeat split.
  - unfold handleLine. fold (tokensOf line). rewrite Ht.
    destruct (String.eqb (TrimRight line crlf) EmptyString);
      repeat split.
  - destruct (String.eqb t0 Version) eqn:Ev.
    2:{ apply String.eqb_neq in Ev.
        rewrite (handle_version _ _ _ _ _ _ Ht Ev). repeat split. }
    apply String.eqb_eq in Ev. subst t0.
    destruct (String.eqb (ToUpper t1) "PUT") eqn:EP.
    { apply String.eqb_eq in EP. destruct args as [|k [|v extra]].
      - run_line Ht. rewrite EP. repeat split.
      - run_line Ht. rewrite EP. repeat split.
      - rewrite (handle_put _ _ _ _ _ _ _ Ht EP). reflexivity. }
    destruct (String.eqb (ToUpper t1) "GET") eqn:EG.
    { apply String.eqb_eq in EG. destruct args as [|k [|k' extra]].
      - run_line Ht. rewrite EG. repeat split.
      - rewrite (handle_get _ _ _ _ _ Ht EG).
        destruct (data (sv_store sv) !! k); reflexivity.
      - run_line Ht. rewrite EG. repeat split. }
    destruct (String.eqb (ToUpper t1) "DEL") eqn:ED.
    { apply String.eqb_eq in ED. destruct args as [|k [|k' extra]].
      - run_line Ht. rewrite EP, EG, ED. repeat split.
      - rewrite (handle_del _ _ _ _ _ Ht ED).
        destruct (data (sv_store sv) !! k); reflexivity.
      - run_line Ht. rewrite EP, EG, ED. repeat split. }
    run_line Ht. rewrite EP, EG, ED. destruct sv as [a [d] ss].
    destruct (String.eqb (ToUpper t1) "STATS").
    { destruct (negb (length args =? 0)%nat); repeat split. }
    destruct (String.eqb (ToUpper t1) "QUIT"); repeat split.
Qed.

Lemma wrap64_succ (z : Z) : wrap64 (wrap64 z + 1) = wrap64 (z + 1).
Proof.
  unfold wrap64.
  replace ((z + 2 ^ 63) mod 2 ^ 64 - 2 ^ 63 + 1 + 2 ^ 63)
    with ((z + 2 ^ 63) mod 2 ^ 64 + 1) by lia.
  rewrite Z.add_mod_idemp_l by lia.
  replace (z + 2 ^ 63 + 1) with (z + 1 + 2 ^ 63) by lia. reflexivity.
Qed.

Lemma handleLine_agrees (uptime : Z) (sv : server) (t : tally)
      (line : string) :
  agrees sv t →
  agrees (fst (fst (handleLine uptime sv line))) (tallyStep t (requestOf line)).
Proof.
  intros (Hd & HP & HG & HD).
  pose proof (handleLine_request uptime sv line) as H.
  destruct (requestOf line) as [k v|k|k|]; cbn [tallyStep].
  - rewrite H. destruct sv as [a [d] ss].
    cbn [agrees sv_store sv_stats data incr withStore writeCounter
           readCounter PutCount GetCount DelCount t_live t_puts t_gets t_dels]
      in *.
    unfold agrees.
    cbn [sv_store sv_stats data incr withStore writeCounter
           readCounter PutCount GetCount DelCount t_live t_puts t_gets t_dels].
    rewrite dom_insert_L, Hd, HP, wrap64_succ. auto.
  - rewrite H. clear H.
    assert (Hin : k ∈ t_live t ↔ is_Some (data (sv_store sv) !! k))
      by (rewrite <- Hd; apply elem_of_dom).
    destruct (data (sv_store sv) !! k) as [w|] eqn:E.
    + rewrite bool_decide_eq_true_2 by (apply Hin; eauto).
      destruct sv as [a [d] ss]. unfold agrees.
      cbn [sv_store sv_stats data incr withStore writeCounter
             readCounter PutCount GetCount DelCount t_live t_puts t_gets
             t_dels] in *.
      rewrite HG, wrap64_succ. auto.
    + rewrite bool_decide_eq_false_2
        by (intros Hk; apply Hin in Hk; destruct Hk; discriminate).
      destruct sv as [a [d] ss]. unfold agrees.
      cbn [sv_store sv_stats data incr withStore writeCounter
             readCounter PutCount GetCount DelCount] in *. auto.
  - rewrite H. clear H.
    assert (Hin : k ∈ t_live t ↔ is_Some (data (sv_store sv) !! k))
      by (rewrite <- Hd; apply elem_of_dom).
    destruct (data (sv_store sv) !! k) as [w|] eqn:E.
    + rewrite bool_decide_eq_true_2 by (apply Hin; eauto).
      destruct sv as [a [d] ss]. unfold agrees.
      cbn [sv_store sv_stats data incr withStore writeCounter
             readCounter PutCount GetCount DelCount t_live t_puts t_gets
             t_dels] in *.
      rewrite dom_delete_L, Hd, HD, wrap64_succ. auto.
    + rewrite bool_decide_eq_false_2
        by (intros Hk; apply Hin in Hk; destruct Hk; discriminate).
      destruct sv as [a [d] ss]. unfold agrees.
      cbn [sv_store sv_stats data incr withStore writeCounter
             readCounter PutCount GetCount DelCount] in *. auto.
  - destruct H as (Hs & H1 & H2 & H3). unfold agrees.
    rewrite Hs, H1, H2, H3. auto.
Qed.

Lemma serve_agrees (reqs : list (Z * string)) :
  ∀ (sv : server) (t : tally),
    agrees sv t →
    agrees (fst (serve reqs sv)) (tallyFrom t (map snd reqs)).
Proof.
  induction reqs as [|[u line] reqs IH]; intros sv t Ha; [exact Ha|].
  cbn [serve map snd]. unfold tallyFrom. cbn [map fold_left].
  pose proof (handleLine_agrees u sv t line Ha) as H1.
  destruct (handleLine u sv line) as [[sv1 out] fl]. cbn [fst] in H1.
  specialize (IH sv1 _ H1). destruct (serve reqs sv1) as [sv2 log].
  exact IH.
Qed.

(** ** The properties *)

(** C1: last write wins and a read sees it.  On the store, [get k] after
    [put k v1] and [put k v2] finds [k] with value [v2]; on a connection,
    the lines PUT k v1, PUT k v2, GET k are answered with a third
    response [200 OK v2]. *)
Theorem C1_last_write_wins
    (u1 u2 u3 : Z) (sv : server) (l1 l2 l3 c1 c2 c3 k v1 v2 : string) :
  tokensOf l1 = [Version; c1; k; v1] → ToUpper c1 = "PUT"%string →
  tokensOf l2 = [Version; c2; k; v2] → ToUpper c2 = "PUT"%string →
  tokensOf l3 = [Version; c3; k] → ToUpper c3 = "GET"%string →
  (∀ s : store,
     fst (Store.get k (snd (Store.put k v2 (snd (Store.put k v1 s)))))
     = (v2, true))
  ∧ ∃ (sv' : server) (r1 r2 : string),
      connLoop [(u1, l1); (u2, l2); (u3, l3)] sv
      = (sv', [r1; r2; nl ("200 OK " +:+ v2)]).
Proof.
  intros H1 U1 H2 U2 H3 U3. split.
  - intros s. unfold Store.get, Store.put. cbn [snd data].
    rewrite lookup_insert_eq. reflexivity.
  - cbn [connLoop].
    rewrite (handle_put _ _ _ _ _ _ _ H1 U1).
    rewrite (handle_put _ _ _ _ _ _ _ H2 U2).
    rewrite (handle_get _ _ _ _ _ H3 U3).
    cbn [sv_store incr withStore data]. rewrite lookup_insert_eq.
    cbn [app]. eauto.
Qed.

(** C2: existence signalling.  [put] reports [created = true] exactly when
    the key was absent; for a key that is absent, GET is answered
    [404 NOT_FOUND], and a PUT followed by a second PUT on the same key are
    answered [201 CREATED] then [200 OK]. *)
Theorem C2_existence_signalling
    (u0 u1 u2 : Z) (sv : server) (lg lp lq cg cp cq k v v' : string) :
  data (sv_store sv) !! k = None →
  tokensOf lg = [Version; cg; k] → ToUpper cg = "GET"%string →
  tokensOf lp = [Version; cp; k; v] → ToUpper cp = "PUT"%string →
  tokensOf lq = [Version; cq; k; v'] → ToUpper cq = "PUT"%string →
  (∀ (s : store) (k0 v0 : string),
     fst (Store.put k0 v0 s) = true ↔ data s !! k0 = None)
  ∧ snd (fst (handleLine u0 sv lg)) = [nl "404 NOT_FOUND"]
  ∧ snd (connLoop [(u1, lp); (u2, lq)] sv)
    = [nl "201 CREATED"; nl "200 OK"]
  ∧ snd (connLoop [(u0, lg); (u1, lp); (u2, lq)] sv)
    = [nl "404 NOT_FOUND"; nl "201 CREATED"; nl "200 OK"].
Proof.
  intros Hk Hg Ug Hp Up Hq Uq.
  split; [intros s k0 v0; split|split; [|split]].
  - unfold Store.put. cbn [fst]. intros Hc.
    apply negb_true_iff, bool_decide_eq_false in Hc.
    destruct (data s !! k0) eqn:E; [|reflexivity].
    exfalso. apply Hc. eauto.
  - unfold Store.put. cbn [fst]. intros Hn.
    apply negb_true_iff, bool_decide_eq_false. rewrite Hn.
    intros [? ?]; discriminate.
  - rewrite (handle_get _ _ _ _ _ Hg Ug), Hk. reflexivity.
  - cbn [connLoop].
    rewrite (handle_put _ _ _ _ _ _ _ Hp Up), Hk.
    rewrite (handle_put _ _ _ _ _ _ _ Hq Uq).
    cbn [sv_store incr withStore data]. rewrite lookup_insert_eq.
    reflexivity.
  - cbn [connLoop].
    rewrite (handle_get _ _ _ _ _ Hg Ug), Hk.
    rewrite (handle_put _ _ _ _ _ _ _ Hp Up).
    cbn [sv_store incr withStore data]. rewrite Hk.
    rewrite (handle_put _ _ _ _ _ _ _ Hq Uq).
    cbn [sv_store incr withStore data]. rewrite lookup_insert_eq.
    reflexivity.
Qed.

(** C3: DEL on a key that is present is answered [204 NO_CONTENT] and
    the size of the store goes down by exactly one; the same DEL repeated
    at once is answered [404 NOT_FOUND] and leaves the size as it is. *)
Theorem C3_del_semantics
    (u1 u2 : Z) (sv : server) (l1 l2 c1 c2 k : string) :
  is_Some (data (sv_store sv) !! k) →
  tokensOf l1 = [Version; c1; k] → ToUpper c1 = "DEL"%string →
  tokensOf l2 = [Version; c2; k] → ToUpper c2 = "DEL"%string →
  ∃ sv1 sv2 : server,
    handleLine u1 sv l1 = (sv1, [nl "204 NO_CONTENT"], Continue)
    ∧ fst (Store.size (sv_store sv1)) = fst (Store.size (sv_store sv)) - 1
    ∧ handleLine u2 sv1 l2 = (sv2, [nl "404 NOT_FOUND"], Continue)
    ∧ fst (Store.size (sv_store sv2)) = fst (Store.size (sv_store sv1)).
Proof.
  intros Hk H1 U1 H2 U2.
  rewrite (handle_del _ _ _ _ _ H1 U1).
  destruct Hk as [w Hw]. rewrite Hw.
  eexists. eexists. split; [reflexivity|]. split.
  - unfold Store.size. cbn [fst sv_store incr withStore data].
    rewrite map_size_delete_Some by eauto.
    assert (base.size (data (sv_store sv)) ≠ 0%nat)
      by (eapply map_size_ne_0_lookup_2; eauto).
    lia.
  - rewrite (handle_del _ _ _ _ _ H2 U2).
    cbn [sv_store incr withStore data]. rewrite lookup_delete_eq.
    split; reflexivity.
Qed.

(** C4, as the handler enforces it: with the right version token, a PUT
    of fewer than four tokens, a GET or DEL whose token count is not
    three and a STATS whose token count is not two are answered
    [400 BAD_REQUEST] and leave the store alone (a PUT may carry more
    than four tokens, and QUIT is answered [200 OK bye] whatever its
    token count); in particular [KV/1.0 PUT onlykey] is answered
    [400 BAD_REQUEST] with the store unchanged. *)
Theorem C4_arity_enforced
    (uptime : Z) (sv : server) (line t1 : string) (args : list string) :
  tokensOf line = Version :: t1 :: args →
  (ToUpper t1 = "PUT"%string ∧ (length (tokensOf line) < 4)%nat)
  ∨ (ToUpper t1 = "GET"%string ∧ length (tokensOf line) ≠ 3%nat)
  ∨ (ToUpper t1 = "DEL"%string ∧ length (tokensOf line) ≠ 3%nat)
  ∨ (ToUpper t1 = "STATS"%string ∧ length (tokensOf line) ≠ 2%nat) →
  (∃ sv' : server,
     handleLine uptime sv line = (sv', [nl "400 BAD_REQUEST"], Continue)
     ∧ sv_store sv' = sv_store sv)
  ∧ (∃ sv' : server,
       handleLine uptime sv (nl "KV/1.0 PUT onlykey")
       = (sv', [nl "400 BAD_REQUEST"], Continue)
       ∧ sv_store sv' = sv_store sv)
  ∧ (∀ (l q : string) (more : list string),
       tokensOf l = Version :: q :: more → ToUpper q = "QUIT"%string →
       handleLine uptime sv l
       = (incr FReqCount 1 sv, [nl "200 OK bye"], Return)).
Proof.
  intros Ht Hcase. split; [|split].
  - exists (incr FReqCount 1 sv). split; [|reflexivity].
    rewrite Ht in Hcase. cbn [length] in Hcase.
    destruct Hcase as [[Hc Hn]|[[Hc Hn]|[[Hc Hn]|[Hc Hn]]]].
    + destruct args as [|a [|b rest]]; cbn [length] in Hn; [| |lia];
        run_line Ht; rewrite Hc; reflexivity.
    + destruct args as [|a [|b rest]]; cbn [length] in Hn; [|lia|];
        run_line Ht; rewrite Hc; reflexivity.
    + destruct args as [|a [|b rest]]; cbn [length] in Hn; [|lia|];
        run_line Ht; rewrite Hc; reflexivity.
    + destruct args as [|a rest]; cbn [length] in Hn; [lia|].
      run_line Ht. rewrite Hc. reflexivity.
  - exists (incr FReqCount 1 sv). split; reflexivity.
  - intros l q more Hl Hq. apply (handle_quit _ _ _ _ _ Hl Hq).
Qed.

Lemma tallyFrom_nonneg (lines : list string) :
  ∀ t : tally,
    0 ≤ t_puts t → 0 ≤ t_gets t → 0 ≤ t_dels t →
    0 ≤ t_puts (tallyFrom t lines) ∧ 0 ≤ t_gets (tallyFrom t lines)
    ∧ 0 ≤ t_dels (tallyFrom t lines).
Proof.
  unfold tallyFrom.
  induction lines as [|l lines IH]; intros t HP HG HD; [auto|].
  cbn [map fold_left]. apply IH;
    destruct (requestOf l) as [k v|k|k|]; cbn [tallyStep];
    repeat match goal with
           | |- context [bool_decide ?P] => destruct (bool_decide P)
           end;
    cbn [t_puts t_gets t_dels]; lia.
Qed.

(** C5, as the handler keeps its counters.  After any sequence of lines
    handled by a fresh server, a snapshot reports, as [int64] values,
    [put_count] = N, [get_count] = M and [del_count] = D, where N is the
    number of PUT requests (right version, at least four tokens: a PUT
    with extra tokens counts too), M the number of GET requests for a key
    that is live and D the number of DEL requests for a key that is live,
    all read off the lines alone; the values are N, M and D themselves
    below [2^63].  [keys] is the number of live keys.  A single request
    moves a counter only on such an outcome: every PUT request counts, a
    GET and a DEL only when the key is in the map. *)
Theorem C5_exact_counters
    (addr : string) (now uptime : Z) (reqs : list (Z * string)) :
  (fst (snapshotStats uptime (fst (serve reqs (newServer addr now))))
     !! "put_count"%string
   = Some (AInt64 (wrap64 (t_puts (tallyOf (map snd reqs)))))
   ∧ fst (snapshotStats uptime (fst (serve reqs (newServer addr now))))
       !! "get_count"%string
     = Some (AInt64 (wrap64 (t_gets (tallyOf (map snd reqs)))))
   ∧ fst (snapshotStats uptime (fst (serve reqs (newServer addr now))))
       !! "del_count"%string
     = Some (AInt64 (wrap64 (t_dels (tallyOf (map snd reqs)))))
   ∧ fst (snapshotStats uptime (fst (serve reqs (newServer addr now))))
       !! "keys"%string
     = Some (AInt (Z.of_nat (base.size (t_live (tallyOf (map snd reqs)))))))
  ∧ ((t_puts (tallyOf (map snd reqs)) < 2 ^ 63 →
      wrap64 (t_puts (tallyOf (map snd reqs)))
      = t_puts (tallyOf (map snd reqs)))
     ∧ (t_gets (tallyOf (map snd reqs)) < 2 ^ 63 →
        wrap64 (t_gets (tallyOf (map snd reqs)))
        = t_gets (tallyOf (map snd reqs)))
     ∧ (t_dels (tallyOf (map snd reqs)) < 2 ^ 63 →
        wrap64 (t_dels (tallyOf (map snd reqs)))
        = t_dels (tallyOf (map snd reqs))))
  ∧ (∀ (u : Z) (s : server) (l : string),
       PutCount (sv_stats (fst (fst (handleLine u s l))))
       = match requestOf l with
         | RPut _ _ => wrap64 (PutCount (sv_stats s) + 1)
         | _ => PutCount (sv_stats s)
         end
       ∧ GetCount (sv_stats (fst (fst (handleLine u s l))))
         = match requestOf l with
           | RGet k =>
               match data (sv_store s) !! k with
               | Some _ => wrap64 (GetCount (sv_stats s) + 1)
               | None => GetCount (sv_stats s)
               end
           | _ => GetCount (sv_stats s)
           end
       ∧ DelCount (sv_stats (fst (fst (handleLine u s l))))
         = match requestOf l with
           | RDel k =>
               match data (sv_store s) !! k with
               | Some _ => wrap64 (DelCount (sv_stats s) + 1)
               | None => DelCount (sv_stats s)
               end
           | _ => DelCount (sv_stats s)
           end).
Proof.
  split; [|split].
  - assert (H0 : agrees (newServer addr now) noTally)
      by (repeat split; cbn; apply dom_empty_L).
    pose proof (serve_agrees reqs _ _ H0) as (Hd & HP & HG & HD).
    fold (tallyOf (map snd reqs)) in *.
    destruct (fst (serve reqs (newServer addr now))) as [a [d] ss].
    cbn [sv_stats sv_store data] in *.
    unfold snapshotStats, Store.size. cbn [fst snd sv_stats sv_store data].
    rewrite <- HP, <- HG, <- HD, <- Hd, size_dom.
    repeat split.
  - destruct (tallyFrom_nonneg (map snd reqs) noTally) as (HP & HG & HD);
      [cbn; lia ..|].
    fold (tallyOf (map snd reqs)) in *.
    repeat split; intros Hb; apply wrap64_small; lia.
  - intros u s l. pose proof (handleLine_request u s l) as H.
    destruct (requestOf l) as [k v|k|k|].
    + rewrite H. destruct s as [a [d] ss]. repeat split.
    + rewrite H. destruct s as [a [d] ss]. cbn [sv_store data].
      destruct (d !! k); repeat split.
    + rewrite H. destruct s as [a [d] ss]. cbn [sv_store data].
      destruct (d !! k); repeat split.
    + destruct H as (_ & H1 & H2 & H3). auto.
Qed.

(** C6: version gating.  A line of at least two tokens whose first token
    is not [KV/1.0] is answered [426 UPGRADE_REQUIRED]; the store and the
    counters of PUT, GET and DEL are as before. *)
Theorem C6_version_gating
    (uptime : Z) (sv : server) (line t0 t1 : string) (args : list string) :
  tokensOf line = t0 :: t1 :: args →
  t0 ≠ Version →
  ∃ sv' : server,
    handleLine uptime sv line = (sv', [nl "426 UPGRADE_REQUIRED"], Continue)
    ∧ sv_store sv' = sv_store sv
    ∧ PutCount (sv_stats sv') = PutCount (sv_stats sv)
    ∧ GetCount (sv_stats sv') = GetCount (sv_stats sv)
    ∧ DelCount (sv_stats sv') = DelCount (sv_stats sv).
Proof.
  intros Ht Hv. rewrite (handle_version _ _ _ _ _ _ Ht Hv).
  eexists. split; [reflexivity|]. repeat split.
Qed.

(** C7: a line that is empty once its trailing CR and LF are stripped
    gets no response and changes nothing, neither the store nor any
    counter, and the loop goes on with the next line. *)
Theorem C7_empty_line
    (uptime : Z) (sv : server) (line : string) (rest : list (Z * string)) :
  TrimRight line crlf = EmptyString →
  handleLine uptime sv line = (sv, [], Continue)
  ∧ connLoop ((uptime, line) :: rest) sv = connLoop rest sv.
Proof.
  intros H. split; [apply handle_blank, H|].
  cbn [connLoop]. rewrite (handle_blank _ _ _ H).
  destruct (connLoop rest sv). reflexivity.
Qed.

(** C8: a PUT line of four tokens or more stores token 3 under the key in
    token 2, whatever follows the fourth token, and is answered
    [201 CREATED] when the key was absent and [200 OK] otherwise. *)
Theorem C8_put_extra_tokens
    (uptime : Z) (sv : server) (line t1 k v : string) (extra : list string) :
  tokensOf line = Version :: t1 :: k :: v :: extra →
  ToUpper t1 = "PUT"%string →
  ∃ sv' : server,
    handleLine uptime sv line
    = (sv',
       [nl (match data (sv_store sv) !! k with
            | None => "201 CREATED"
            | Some _ => "200 OK"
            end)],
       Continue)
    ∧ data (sv_store sv') = <[k := v]> (data (sv_store sv)).
Proof.
  intros Ht Hc. rewrite (handle_put _ _ _ _ _ _ _ Ht Hc).
  eexists. split; reflexivity.
Qed.

(** C9: a line that is not empty once CR and LF are stripped, but holds
    white space only, is counted as a request and answered
    [400 BAD_REQUEST]: it splits into no token at all. *)
Theorem C9_whitespace_line (uptime : Z) (sv : server) (line : string) :
  TrimRight line crlf ≠ EmptyString →
  allSpace (TrimRight line crlf) = true →
  tokensOf line = []
  ∧ handleLine uptime sv line
    = (incr FReqCount 1 sv, [nl "400 BAD_REQUEST"], Continue)
  ∧ ReqCount (sv_stats (incr FReqCount 1 sv))
    = wrap64 (ReqCount (sv_stats sv) + 1).
Proof.
  intros Hne Hsp.
  assert (Ht : tokensOf line = []) by (apply Fields_allSpace, Hsp).
  split; [exact Ht|]. split; [|reflexivity].
  apply handle_few; [exact Hne|]. rewrite Ht. cbn [length]. lia.
Qed.

(** C10: reading does not write.  [get] hands back the store it was
    given, hit or miss, and a GET request leaves the map as it was; a
    snapshot of the statistics leaves the server, hence the map and the
    number of keys, as it was. *)
Theorem C10_reads_do_not_mutate
    (uptime : Z) (sv : server) (line c k : string) :
  tokensOf line = [Version; c; k] → ToUpper c = "GET"%string →
  (∀ (s : store) (k0 : string), snd (Store.get k0 s) = s)
  ∧ data (sv_store (fst (fst (handleLine uptime sv line))))
    = data (sv_store sv)
  ∧ (∀ (u : Z) (sv0 : server),
       data (sv_store (snd (snapshotStats u sv0))) = data (sv_store sv0)
       ∧ fst (Store.size (sv_store (snd (snapshotStats u sv0))))
         = fst (Store.size (sv_store sv0))
       ∧ snd (snapshotStats u sv0) = sv0).
Proof.
  intros Ht Hc. split; [|split].
  - intros s k0. unfold Store.get. destruct (data s !! k0); reflexivity.
  - rewrite (handle_get _ _ _ _ _ Ht Hc).
    destruct (data (sv_store sv) !! k); reflexivity.
  - intros u [a [d] ss]. repeat split.
Qed.

(** ** Further properties: the store *)

(** X1.  Writing or deleting a key leaves every other key as it was. *)
Theorem store_other_keys (s : store) (k k' v : string) :
  k ≠ k' →
  fst (Store.get k' (snd (Store.put k v s))) = fst (Store.get k' s)
  ∧ fst (Store.get k' (snd (Store.del k s))) = fst (Store.get k' s).
Proof.
  intros Hne. unfold Store.get, Store.put, Store.del. cbn [snd data].
  split.
  - rewrite (lookup_insert_ne _ _ _ _ Hne). destruct (data s !! k'); reflexivity.
  - destruct (data s !! k) eqn:E; cbn [snd data].
    + rewrite (lookup_delete_ne _ _ _ Hne). destruct (data s !! k'); reflexivity.
    + destruct (data s !! k'); reflexivity.
Qed.

(** X2.  The size of the store grows by one on a [put] that reports
    [created], and stays the same on a [put] that overwrites. *)
Theorem put_size (s : store) (k v : string) :
  fst (Store.size (snd (Store.put k v s)))
  = fst (Store.size s) + (if fst (Store.put k v s) then 1 else 0).
Proof.
  unfold Store.size, Store.put. cbn [fst snd data].
  rewrite map_size_insert.
  destruct (data s !! k) as [w|] eqn:E.
  - rewrite bool_decide_eq_true_2 by eauto. cbn [negb id]. lia.
  - rewrite bool_decide_eq_false_2 by (intros [? ?]; discriminate).
    cbn [negb]. lia.
Qed.

(** X3.  [del] reports whether the key was there; afterwards the key is
    absent, the size has gone down by one exactly when something was
    deleted, and a [del] that reports [false] has left the store
    untouched. *)
Theorem del_reports_presence (s : store) (k : string) :
  (fst (Store.del k s) = snd (fst (Store.get k s)))
  ∧ fst (Store.get k (snd (Store.del k s))) = (EmptyString, false)
  ∧ fst (Store.size (snd (Store.del k s)))
    = fst (Store.size s) - (if fst (Store.del k s) then 1 else 0)
  ∧ (fst (Store.del k s) = false → snd (Store.del k s) = s).
Proof.
  unfold Store.del, Store.get, Store.size.
  destruct (data s !! k) as [w|] eqn:E; cbn [fst snd data].
  - rewrite lookup_delete_eq. split; [reflexivity|]. split; [reflexivity|].
    split; [|discriminate].
    rewrite map_size_delete_Some by eauto.
    assert (base.size (data s) ≠ 0%nat)
      by (eapply map_size_ne_0_lookup_2; eauto).
    lia.
  - rewrite E. split; [reflexivity|]. split; [reflexivity|].
    split; [lia|reflexivity].
Qed.

(** X4.  A [put] of a key that was absent followed by a [del] of it gives the
    store back as it was, and the [del] reports a deletion. *)
Theorem put_del_roundtrip (s : store) (k v : string) :
  data s !! k = None →
  Store.del k (snd (Store.put k v s)) = (true, s).
Proof.
  intros Hk. unfold Store.del, Store.put. cbn [snd data].
  rewrite lookup_insert_eq, (delete_insert_id _ _ _ Hk).
  destruct s. reflexivity.
Qed.

(** X5.  The last [put] on a key decides: the store after [put k v1] and
    [put k v2] is the store after [put k v2] alone, and the second [put]
    reports that nothing was created. *)
Theorem put_overwrites (s : store) (k v1 v2 : string) :
  snd (Store.put k v2 (snd (Store.put k v1 s))) = snd (Store.put k v2 s)
  ∧ fst (Store.put k v2 (snd (Store.put k v1 s))) = false.
Proof.
  unfold Store.put. cbn [fst snd data]. split.
  - rewrite insert_insert_eq. reflexivity.
  - rewrite lookup_insert_eq.
    rewrite bool_decide_eq_true_2 by eauto. reflexivity.
Qed.

(** ** Further properties: one request *)

Lemma handleLine_effect (uptime : Z) (sv : server) (line : string) :
  effectSpec sv line (handleLine uptime sv line).
Proof.
  unfold effectSpec, nonBlank, isPutOk, isDelHit, keyOf, valueOf, cmdOf,
    tokensOf, handleLine.
  cbn [fst snd].
  destruct (String.eqb (TrimRight line crlf) EmptyString) eqn:Eb.
  { cbn [fst snd answered negb length]. rewrite !andb_false_r.
    repeat split; first [reflexivity | discriminate | (intros _; apply Nat.ltb_ge; assumption)]. }
  cbn [negb].
  remember (Fields (TrimRight line crlf)) as toks eqn:Htoks.
  destruct sv as [a [d] ss].
  destruct (length toks <? 2)%nat eqn:E2.
  { cbn [fst snd answered length]. eval_closed. rewrite !andb_false_r.
    repeat split; first [reflexivity | discriminate | (intros _; apply Nat.ltb_ge; assumption)]. }
  destruct (String.eqb (nth 0 toks EmptyString) Version) eqn:Ev; cbn [negb].
  2:{ cbn [fst snd answered length]. eval_closed. rewrite !andb_false_r.
      repeat split; first [reflexivity | discriminate | (intros _; apply Nat.ltb_ge; assumption)]. }
  remember (ToUpper (nth 1 toks EmptyString)) as cmd eqn:Hcmd.
  destruct (String.eqb cmd "PUT") eqn:EP.
  { apply String.eqb_eq in EP. rewrite EP. eval_closed.
    destruct (length toks <? 4)%nat eqn:E4.
    { cbn [fst snd answered length]. eval_closed. cbn [orb andb].
      repeat split; first [reflexivity | discriminate | (intros _; apply Nat.ltb_ge; assumption)]. }
    unfold Store.put. cbn [sv_store incr withStore data].
    destruct (negb _); cbn [fst snd answered length sv_stats sv_store data
      incr withStore writeCounter readCounter sv_addr StartTime TotalConns
      ActiveConns ReqCount];
      eval_closed; cbn [orb andb]; repeat split; first [reflexivity | discriminate | (intros _; apply Nat.ltb_ge; assumption)]. }
  destruct (String.eqb cmd "GET") eqn:EG.
  { apply String.eqb_eq in EG. rewrite EG. eval_closed.
    destruct (length toks =? 3)%nat eqn:E3; cbn [negb].
    2:{ cbn [fst snd answered length]. eval_closed. cbn [orb andb].
        repeat split; first [reflexivity | discriminate | (intros _; apply Nat.ltb_ge; assumption)]. }
    unfold Store.get. cbn [sv_store incr withStore data].
    destruct (d !! nth 2 toks EmptyString) as [w|];
      cbn [fst snd answered length sv_stats sv_store data incr withStore
        writeCounter readCounter sv_addr StartTime TotalConns ActiveConns
        ReqCount];
      eval_closed; cbn [orb andb]; rewrite ?andb_false_r;
      repeat split; first [reflexivity | discriminate | (intros _; apply Nat.ltb_ge; assumption)]. }
  destruct (String.eqb cmd "DEL") eqn:ED.
  { clear ED. eval_closed.
    destruct (length toks =? 3)%nat eqn:E3; cbn [negb].
    2:{ cbn [fst snd answered length]. eval_closed. cbn [orb andb].
        repeat split; first [reflexivity | discriminate | (intros _; apply Nat.ltb_ge; assumption)]. }
    unfold Store.del. cbn [sv_store incr withStore data].
    destruct (d !! nth 2 toks EmptyString) as [w|] eqn:Ew;
      cbn [fst snd answered length sv_stats sv_store data incr withStore
        writeCounter readCounter sv_addr StartTime TotalConns ActiveConns
        ReqCount];
      eval_closed; cbn [orb andb]; repeat split; first [reflexivity | discriminate | (intros _; apply Nat.ltb_ge; assumption)]. }
  cbn [andb].
  destruct (String.eqb cmd "STATS") eqn:ES.
  { destruct (length toks =? 2)%nat; cbn [negb]; cbn;
      repeat split; first [reflexivity | discriminate | (intros _; apply Nat.ltb_ge; assumption)]. }
  destruct (String.eqb cmd "QUIT"); cbn; repeat split; first [reflexivity | discriminate | (intros _; apply Nat.ltb_ge; assumption)].
Qed.

Lemma TrimRight_snoc (s cutset : string) (c : ascii) :
  inCutset cutset c = true →
  TrimRight (s +:+ String c EmptyString) cutset = TrimRight s cutset.
Proof.
  intros Hc. induction s as [|a s IH].
  - change (EmptyString +:+ String c EmptyString) with (String c EmptyString).
    cbn [TrimRight]. rewrite Hc. reflexivity.
  - change (String a s +:+ String c EmptyString)
      with (String a (s +:+ String c EmptyString)).
    cbn [TrimRight]. rewrite IH. reflexivity.
Qed.

Lemma append_assoc (a b c : string) : (a +:+ b) +:+ c = a +:+ (b +:+ c).
Proof.
  induction a as [|x a IH]; [reflexivity|].
  change (String x (a +:+ b) +:+ c = String x (a +:+ (b +:+ c))).
  change (String x ((a +:+ b) +:+ c) = String x (a +:+ (b +:+ c))).
  rewrite IH. reflexivity.
Qed.

Lemma handleLine_trim (uptime : Z) (sv : server) (l1 l2 : string) :
  TrimRight l1 crlf = TrimRight l2 crlf →
  handleLine uptime sv l1 = handleLine uptime sv l2.
Proof. intros H. unfold handleLine. rewrite H. reflexivity. Qed.

(** X6.  The handler does not tell CRLF from LF: a line ended by a carriage
    return and a line feed is handled as the same line ended by a line
    feed alone. *)
Theorem crlf_as_lf (uptime : Z) (sv : server) (s : string) :
  handleLine uptime sv (s +:+ crlf) = handleLine uptime sv (nl s).
Proof.
  apply handleLine_trim. unfold nl, crlf.
  change (String CR (String LF EmptyString))
    with (String CR EmptyString +:+ String LF EmptyString).
  rewrite <- append_assoc.
  rewrite !TrimRight_snoc by reflexivity. reflexivity.
Qed.

(** X7.  A command that is none of PUT, GET, DEL, STATS and QUIT is answered
    [400 BAD_REQUEST], whatever its arguments; only the request counter
    moves. *)
Theorem unknown_command
    (uptime : Z) (sv : server) (line t1 : string) (args : list string) :
  tokensOf line = Version :: t1 :: args →
  ToUpper t1 ≠ "PUT"%string → ToUpper t1 ≠ "GET"%string →
  ToUpper t1 ≠ "DEL"%string → ToUpper t1 ≠ "STATS"%string →
  ToUpper t1 ≠ "QUIT"%string →
  handleLine uptime sv line
  = (incr FReqCount 1 sv, [nl "400 BAD_REQUEST"], Continue).
Proof.
  intros Ht HP HG HD HS HQ. run_line Ht.
  rewrite (String_eqb_neq _ _ HP), (String_eqb_neq _ _ HG),
    (String_eqb_neq _ _ HD), (String_eqb_neq _ _ HS), (String_eqb_neq _ _ HQ).
  reflexivity.
Qed.

Lemma upperByte_idem (c : ascii) : upperByte (upperByte c) = upperByte c.
Proof. destruct c as [[] [] [] [] [] [] [] []]; reflexivity. Qed.

Lemma upperByte_ascii (c : ascii) :
  (byteZ c <? 128) = true → (byteZ (upperByte c) <? 128) = true.
Proof. destruct c as [[] [] [] [] [] [] [] []]; intros H; exact H || reflexivity. Qed.

Lemma ToUpper_idem (s : string) :
  isASCII s = true → ToUpper (ToUpper s) = ToUpper s.
Proof.
  intros H. unfold ToUpper. rewrite H.
  assert (H' : isASCII (mapBytes upperByte s) = true).
  { revert H. unfold isASCII. induction s as [|c s IH]; [reflexivity|].
    cbn [mapBytes list_ascii_of_string forallb]. intros H.
    apply andb_true_iff in H as [Hc Hs].
    rewrite (upperByte_ascii _ Hc), (IH Hs). reflexivity. }
  rewrite H'. clear. induction s as [|c s IH]; [reflexivity|].
  cbn [mapBytes]. rewrite upperByte_idem, IH. reflexivity.
Qed.

(** X8.  The command is read without regard to case: two lines that differ
    only in their command tokens are handled alike when the tokens have
    the same upper-case form, and upper-casing an ASCII command token
    does not change its upper-case form. *)
Theorem command_case_insensitive
    (uptime : Z) (sv : server) (l1 l2 t0 c1 c2 : string)
    (args : list string) :
  tokensOf l1 = t0 :: c1 :: args →
  tokensOf l2 = t0 :: c2 :: args →
  ToUpper c1 = ToUpper c2 →
  handleLine uptime sv l1 = handleLine uptime sv l2
  ∧ (isASCII c1 = true → ToUpper (ToUpper c1) = ToUpper c1).
Proof.
  intros H1 H2 Hc. split; [|apply ToUpper_idem].
  unfold handleLine.
  rewrite (tokens_nonblank _ _ _ H1), (tokens_nonblank _ _ _ H2).
  unfold tokensOf in H1, H2. rewrite H1, H2.
  cbn [length nth]. rewrite Hc. reflexivity.
Qed.

(** X9.  STATS is answered with the marshalled snapshot, taken after the
    request itself was counted: [req_count] includes the STATS request,
    [keys] is the size of the map, and nothing but the request counter
    changes. *)
Theorem stats_counts_itself
    (uptime : Z) (sv : server) (line c : string) :
  tokensOf line = [Version; c] → ToUpper c = "STATS"%string →
  ∃ snap : gmap string any,
    handleLine uptime sv line
    = (incr FReqCount 1 sv, [nl ("200 OK " +:+ jsonMarshal snap)], Continue)
    ∧ snap !! "req_count"%string
      = Some (AInt64 (wrap64 (ReqCount (sv_stats sv) + 1)))
    ∧ snap !! "keys"%string
      = Some (AInt (Z.of_nat (base.size (data (sv_store sv)))))
    ∧ snap !! "uptime_sec"%string = Some (AInt uptime)
    ∧ snap !! "version"%string = Some (AString Version)
    ∧ snap !! "total_conns"%string
      = Some (AInt64 (TotalConns (sv_stats sv)))
    ∧ snap !! "active_conns"%string
      = Some (AInt64 (ActiveConns (sv_stats sv)))
    ∧ base.size snap = 9%nat.
Proof.
  intros Ht Hc. rewrite (handle_stats _ _ _ _ Ht Hc).
  eexists. split; [reflexivity|].
  destruct sv as [a [d] ss]. repeat split.
Qed.

(** ** Further properties: sequences of requests and connections *)

Lemma serve_lines (reqs : list (Z * string)) :
  ∀ sv : server, map fst (snd (serve reqs sv)) = map snd reqs.
Proof.
  induction reqs as [|[u line] reqs IH]; intros sv; [reflexivity|].
  cbn [serve]. destruct (handleLine u sv line) as [[sv1 out] fl].
  specialize (IH sv1). destruct (serve reqs sv1) as [sv2 log].
  cbn [fst snd map] in *. rewrite IH. reflexivity.
Qed.

Lemma serve_responses (reqs : list (Z * string)) :
  ∀ sv : server,
    Forall (fun e => length (snd e)
                     = if nonBlank (fst e) then 1%nat else 0%nat)
      (snd (serve reqs sv)).
Proof.
  induction reqs as [|[u line] reqs IH]; intros sv; [constructor|].
  cbn [serve]. pose proof (handleLine_effect u sv line) as E.
  destruct (handleLine u sv line) as [[sv1 out] fl].
  destruct E as (_ & _ & _ & _ & _ & Hlen & _).
  specialize (IH sv1). destruct (serve reqs sv1) as [sv2 log].
  cbn [fst snd] in *. constructor; assumption.
Qed.

Lemma responses_total (log : list (string * list string)) :
  Forall (fun e => length (snd e)
                   = if nonBlank (fst e) then 1%nat else 0%nat) log →
  Z.of_nat (length (concat (map snd log)))
  = countIf (fun e => nonBlank (fst e)) log.
Proof.
  induction 1 as [|e log He Hlog IH]; [reflexivity|].
  cbn [map concat]. rewrite length_app, countIf_cons, Nat2Z.inj_add, IH, He.
  destruct (nonBlank (fst e)); reflexivity.
Qed.

(** X10.  Every line that is not blank is counted as one request and answered
    with exactly one response, and a blank line with none: after any
    sequence of lines handled by a fresh server, the request counter is
    the number of lines that are not blank (below [2^63]), which is also
    the number of responses written. *)
Theorem requests_counted
    (addr : string) (now : Z) (reqs : list (Z * string))
    (sv : server) (log : list (string * list string)) :
  serve reqs (newServer addr now) = (sv, log) →
  countIf (fun e => nonBlank (fst e)) log < 2 ^ 63 →
  map fst log = map snd reqs
  ∧ ReqCount (sv_stats sv) = countIf (fun e => nonBlank (fst e)) log
  ∧ Forall (fun e => length (snd e)
                     = if nonBlank (fst e) then 1%nat else 0%nat) log
  ∧ Z.of_nat (length (concat (map snd log))) = ReqCount (sv_stats sv).
Proof.
  intros Hrun Hb.
  assert (Hsv : sv = fst (serve reqs (newServer addr now)))
    by (rewrite Hrun; reflexivity).
  assert (Hlog : log = snd (serve reqs (newServer addr now)))
    by (rewrite Hrun; reflexivity).
  assert (HF : Forall (fun e => length (snd e)
                     = if nonBlank (fst e) then 1%nat else 0%nat) log)
    by (rewrite Hlog; apply serve_responses).
  assert (HR : ReqCount (sv_stats sv)
               = countIf (fun e => nonBlank (fst e)) log).
  { rewrite Hsv, Hlog.
    rewrite (serve_counter (fun s => ReqCount (sv_stats s))
               (fun e => nonBlank (fst e))).
    - reflexivity.
    - intros u s l. apply (handleLine_effect u s l).
    - cbn. lia.
    - rewrite <- Hlog. cbn. lia. }
  split; [rewrite Hlog; apply serve_lines|].
  split; [exact HR|]. split; [exact HF|].
  rewrite HR. apply responses_total, HF.
Qed.

Lemma serve_replay (reqs : list (Z * string)) :
  ∀ sv : server,
    data (sv_store (fst (serve reqs sv)))
    = replay (snd (serve reqs sv)) (data (sv_store sv)).
Proof.
  induction reqs as [|[u line] reqs IH]; intros sv; [reflexivity|].
  cbn [serve]. pose proof (handleLine_effect u sv line) as E.
  destruct (handleLine u sv line) as [[sv1 out] fl].
  destruct E as (_ & _ & _ & _ & _ & _ & _ & Hd & _).
  specialize (IH sv1). destruct (serve reqs sv1) as [sv2 log].
  cbn [fst snd replay] in *. rewrite IH, Hd. reflexivity.
Qed.

(** X11.  The map is what the answered requests say it is: after any sequence
    of requests to a fresh server, it is the replay of the log (each PUT
    answered [201 CREATED] or [200 OK] binds its key to its value, each
    DEL answered [204 NO_CONTENT] removes its key), and a GET is answered
    from that replay: the value of the latest PUT of the key that no DEL
    has removed since, or [404 NOT_FOUND]. *)
Theorem store_is_replay
    (addr : string) (now uptime : Z) (reqs : list (Z * string))
    (sv : server) (log : list (string * list string)) (line c k : string) :
  serve reqs (newServer addr now) = (sv, log) →
  tokensOf line = [Version; c; k] → ToUpper c = "GET"%string →
  data (sv_store sv) = replay log ∅
  ∧ snd (fst (handleLine uptime sv line))
    = [match replay log ∅ !! k with
       | Some v => nl ("200 OK " +:+ v)
       | None => nl "404 NOT_FOUND"
       end].
Proof.
  intros Hrun Ht Hc.
  assert (Hd : data (sv_store sv) = replay log ∅).
  { replace sv with (fst (serve reqs (newServer addr now)))
      by (rewrite Hrun; reflexivity).
    replace log with (snd (serve reqs (newServer addr now)))
      by (rewrite Hrun; reflexivity).
    apply serve_replay. }
  split; [exact Hd|].
  rewrite (handle_get _ _ _ _ _ Ht Hc), Hd.
  destruct (replay log ∅ !! k); reflexivity.
Qed.

Lemma connLoop_frame (reqs : list (Z * string)) :
  ∀ sv : server,
    sv_addr (fst (connLoop reqs sv)) = sv_addr sv
    ∧ TotalConns (sv_stats (fst (connLoop reqs sv)))
      = TotalConns (sv_stats sv)
    ∧ ActiveConns (sv_stats (fst (connLoop reqs sv)))
      = ActiveConns (sv_stats sv).
Proof.
  induction reqs as [|[u line] reqs IH]; intros sv; [repeat split|].
  cbn [connLoop]. pose proof (handleLine_effect u sv line) as E.
  destruct (handleLine u sv line) as [[sv1 out] fl].
  destruct E as (Ha & _ & Ht & Hc & _). cbn [fst snd] in *.
  destruct fl; [|cbn [fst]; auto].
  specialize (IH sv1). destruct (connLoop reqs sv1) as [sv2 out2].
  cbn [fst] in *. destruct IH as (-> & -> & ->). auto.
Qed.

(** X12.  A connection is counted once and no longer counted as active when
    its handler ends, however it ends: [TotalConns] has gone up by one
    and [ActiveConns], within the range of [int64], is back to what it
    was; while the connection lasts, its requests see the server with
    both counters one higher. *)
Theorem handleConn_accounting (reqs : list (Z * string)) (sv : server) :
  - 2 ^ 63 ≤ ActiveConns (sv_stats sv) < 2 ^ 63 →
  TotalConns (sv_stats (fst (handleConn reqs sv)))
  = wrap64 (TotalConns (sv_stats sv) + 1)
  ∧ ActiveConns (sv_stats (fst (handleConn reqs sv)))
    = ActiveConns (sv_stats sv)
  ∧ sv_store (fst (handleConn reqs sv))
    = sv_store (fst (connLoop reqs (incr FActiveConns 1
                                      (incr FTotalConns 1 sv))))
  ∧ snd (handleConn reqs sv)
    = snd (connLoop reqs (incr FActiveConns 1 (incr FTotalConns 1 sv))).
Proof.
  intros Hr. unfold handleConn.
  pose proof (connLoop_frame reqs
                (incr FActiveConns 1 (incr FTotalConns 1 sv)))
    as (_ & Ht & Ha).
  destruct (connLoop reqs (incr FActiveConns 1 (incr FTotalConns 1 sv)))
    as [sv1 out].
  cbn [fst snd sv_stats sv_store incr writeCounter readCounter TotalConns
         ActiveConns] in *.
  rewrite Ht, Ha. repeat split.
  unfold wrap64.
  set (a := ActiveConns (sv_stats sv)) in *.
  destruct (Z.eq_dec a (2 ^ 63 - 1)) as [->|Hne].
  - reflexivity.
  - rewrite (Z.mod_small (a + 1 + 2 ^ 63)) by lia.
    rewrite Z.mod_small by lia. lia.
Qed.

Lemma connLoop_ends_bye (reqs : list (Z * string)) :
  ∀ (sv : server) (u : Z) (q c : string) (args : list string)
    (rest : list (Z * string)),
    tokensOf q = Version :: c :: args → ToUpper c = "QUIT"%string →
    connLoop (reqs ++ (u, q) :: rest) sv = connLoop (reqs ++ [(u, q)]) sv
    ∧ ∃ out : list string,
        snd (connLoop (reqs ++ (u, q) :: rest) sv)
        = out ++ [nl "200 OK bye"].
Proof.
  induction reqs as [|[u0 l0] reqs IH]; intros sv u q c args rest Ht Hc.
  - cbn [app connLoop]. rewrite (handle_quit _ _ _ _ _ Ht Hc).
    split; [reflexivity|]. exists []. reflexivity.
  - cbn [app connLoop]. pose proof (handleLine_effect u0 sv l0) as E.
    destruct (handleLine u0 sv l0) as [[sv1 out] fl].
    destruct E as (_ & _ & _ & _ & _ & _ & Hret & _). cbn [fst snd] in Hret.
    destruct fl.
    + destruct (IH sv1 u q c args rest Ht Hc) as [E1 [o E2]].
      rewrite E1. split; [reflexivity|].
      rewrite <- E1.
      destruct (connLoop (reqs ++ (u, q) :: rest) sv1) as [sv2 out2].
      cbn [snd] in *. exists (out ++ o). rewrite E2, app_assoc. reflexivity.
    + split; [reflexivity|]. exists []. cbn [snd app].
      apply Hret. reflexivity.
Qed.

(** X13.  QUIT ends the connection: the lines that follow a QUIT are not
    handled, so the server and the responses are those of the lines up
    to it, and the last response of the connection is [200 OK bye]. *)
Theorem quit_ends_connection
    (pre rest : list (Z * string)) (sv : server) (u : Z) (q c : string)
    (args : list string) :
  tokensOf q = Version :: c :: args → ToUpper c = "QUIT"%string →
  connLoop (pre ++ (u, q) :: rest) sv = connLoop (pre ++ [(u, q)]) sv
  ∧ ∃ out : list string,
      snd (connLoop (pre ++ (u, q) :: rest) sv) = out ++ [nl "200 OK bye"].
Proof. intros Ht Hc. apply (connLoop_ends_bye pre sv u q c args rest Ht Hc). Qed.

(** ** Further properties: what the tokens are made of *)

Lemma firstInfo_cases (b : Z) (sz : nat) (lo hi : Z) :
  firstInfo b = Some (sz, lo, hi) →
  (sz = 2 ∨ sz = 3 ∨ sz = 4)%nat ∧ 128 ≤ lo.
Proof.
  unfold firstInfo.
  repeat match goal with
         | |- context [if ?c then _ else _] => destruct c
         end;
    intros [= <- <- <-] || discriminate; split; auto; lia.
Qed.

(** The shapes of a decoded rune: one byte (ASCII, or an error), or a
    sequence of two to four bytes, none of them ASCII. *)
Lemma decode_shape (c0 : ascii) (s1 : string) (r : Z) (n : nat) :
  DecodeRuneInString (String c0 s1) = (r, n) →
  (n = 1%nat
   ∧ (if byteZ c0 <? 128 then r = byteZ c0 else r = RuneError))
  ∨ (128 ≤ byteZ c0
     ∧ ∃ (c1 : ascii) (s2 : string),
         s1 = String c1 s2 ∧ 128 ≤ byteZ c1
         ∧ (n = 2%nat
            ∨ ∃ (c2 : ascii) (s3 : string),
                s2 = String c2 s3 ∧ 128 ≤ byteZ c2
                ∧ (n = 3%nat
                   ∨ ∃ (c3 : ascii) (s4 : string),
                       s3 = String c3 s4 ∧ 128 ≤ byteZ c3 ∧ n = 4%nat))).
Proof.
  unfold DecodeRuneInString.
  destruct (byteZ c0 <? 128) eqn:E0.
  { intros [= <- <-]. left. auto. }
  apply Z.ltb_ge in E0.
  destruct (firstInfo (byteZ c0)) as [[[sz lo] hi]|] eqn:EF.
  2:{ intros [= <- <-]. left. auto. }
  destruct (firstInfo_cases _ _ _ _ EF) as [Hsz Hlo].
  destruct (String.length (String c0 s1) <? sz)%nat.
  { intros [= <- <-]. left. auto. }
  destruct s1 as [|c1 s2]; [intros [= <- <-]; left; auto|].
  destruct ((byteZ c1 <? lo) || (hi <? byteZ c1)) eqn:E1.
  { intros [= <- <-]. left. auto. }
  apply orb_false_iff in E1 as [E1 _]. apply Z.ltb_ge in E1.
  destruct (sz <=? 2)%nat.
  { intros [= <- <-]. right. split; [lia|].
    exists c1, s2. repeat split; [lia|]. left. reflexivity. }
  destruct s2 as [|c2 s3]; [intros [= <- <-]; left; auto|].
  unfold isCont.
  destruct ((128 <=? byteZ c2) && (byteZ c2 <=? 191)) eqn:E2; cbn [negb].
  2:{ intros [= <- <-]. left. auto. }
  apply andb_true_iff in E2 as [E2 _]. apply Z.leb_le in E2.
  destruct (sz <=? 3)%nat.
  { intros [= <- <-]. right. split; [lia|].
    exists c1, (String c2 s3). repeat split; [lia|]. right.
    exists c2, s3. repeat split; [lia|]. left. reflexivity. }
  destruct s3 as [|c3 s4]; [intros [= <- <-]; left; auto|].
  destruct ((128 <=? byteZ c3) && (byteZ c3 <=? 191)) eqn:E3; cbn [negb].
  2:{ intros [= <- <-]. left. auto. }
  apply andb_true_iff in E3 as [E3 _]. apply Z.leb_le in E3.
  intros [= <- <-]. right. split; [lia|].
  exists c1, (String c2 (String c3 s4)). repeat split; [lia|]. right.
  exists c2, (String c3 s4). repeat split; [lia|]. right.
  exists c3, s4. repeat split. lia.
Qed.

Lemma string_length_ind (P : string → Prop) :
  (∀ s, (∀ t, (String.length t < String.length s)%nat → P t) → P s) →
  ∀ s, P s.
Proof.
  intros H s. remember (String.length s) as n eqn:Hn.
  revert s Hn. induction n as [n IH] using lt_wf_ind. intros s ->.
  apply H. intros t Ht. apply (IH _ Ht t eq_refl).
Qed.

(** The first rune of a string that is not empty: its bytes come first in
    the string, the other runes are those of what follows, and the bytes
    are a single byte or bytes outside ASCII. *)
Lemma runes_cons (c0 : ascii) (s1 : string) :
  ∃ (r : Z) (bs rest : string),
    runes (String c0 s1) = (r, bs) :: runes rest
    ∧ String c0 s1 = bs +:+ rest
    ∧ (String.length rest < String.length (String c0 s1))%nat
    ∧ ((bs = String c0 EmptyString
        ∧ (if byteZ c0 <? 128 then r = byteZ c0 else r = RuneError))
       ∨ (bs ≠ EmptyString ∧ highBytes bs = true)).
Proof.
  cbn [runes].
  destruct (DecodeRuneInString (String c0 s1)) as [r n] eqn:E.
  destruct (decode_shape _ _ _ _ E)
    as [[-> Hr] | (H0 & c1 & s2 & -> & H1 & [-> | (c2 & s3 & -> & H2 &
         [-> | (c3 & s4 & -> & H3 & ->)])])].
  - exists r, (String c0 EmptyString), s1.
    split; [destruct s1; reflexivity|]. split; [reflexivity|].
    split; [cbn [String.length]; lia|]. left. auto.
  - exists r, (String c0 (String c1 EmptyString)), s2.
    split; [reflexivity|]. split; [reflexivity|].
    split; [cbn [String.length]; lia|]. right. split; [discriminate|].
    unfold highBytes. cbn [list_ascii_of_string forallb].
    rewrite !(proj2 (Z.leb_le _ _)) by assumption. reflexivity.
  - exists r, (String c0 (String c1 (String c2 EmptyString))), s3.
    split; [reflexivity|]. split; [reflexivity|].
    split; [cbn [String.length]; lia|]. right. split; [discriminate|].
    unfold highBytes. cbn [list_ascii_of_string forallb].
    rewrite !(proj2 (Z.leb_le _ _)) by assumption. reflexivity.
  - exists r, (String c0 (String c1 (String c2 (String c3 EmptyString)))), s4.
    split; [reflexivity|]. split; [reflexivity|].
    split; [cbn [String.length]; lia|]. right. split; [discriminate|].
    unfold highBytes. cbn [list_ascii_of_string forallb].
    rewrite !(proj2 (Z.leb_le _ _)) by assumption. reflexivity.
Qed.

Lemma runes_concat (s : string) : concatStrings (map snd (runes s)) = s.
Proof.
  induction s as [s IH] using string_length_ind.
  destruct s as [|c0 s1]; [reflexivity|].
  destruct (runes_cons c0 s1) as (r & bs & rest & E & Hs & Hl & _).
  rewrite E. cbn [map snd concatStrings]. rewrite (IH rest Hl). auto.
Qed.

Lemma asciiSpace_low (b : Z) : asciiSpace b = true → b < 128.
Proof.
  unfold asciiSpace. intros H.
  repeat (apply orb_true_iff in H as [H|H]); apply Z.eqb_eq in H; lia.
Qed.

Lemma highBytes_noSpace (s : string) :
  highBytes s = true → noSpaceBytes s = true.
Proof.
  unfold highBytes, noSpaceBytes.
  induction (list_ascii_of_string s) as [|c l IH]; [reflexivity|].
  cbn [forallb]. intros H. apply andb_true_iff in H as [Hc Hl].
  rewrite (IH Hl), andb_true_r. apply Z.leb_le in Hc.
  destruct (asciiSpace (byteZ c)) eqn:E; [|reflexivity].
  apply asciiSpace_low in E. lia.
Qed.

Lemma cleanToken_nonempty (t : string) :
  t ≠ EmptyString → noSpaceBytes t = true → cleanToken t = true.
Proof.
  intros Hn Hs. unfold cleanToken. rewrite (nonblank_eqb _ Hn), Hs.
  reflexivity.
Qed.

(** The bytes of a rune that is not white space are a token. *)
Lemma runes_clean (s : string) :
  Forall (fun p => IsSpace (fst p) = false → cleanToken (snd p) = true)
    (runes s).
Proof.
  induction s as [s IH] using string_length_ind.
  destruct s as [|c0 s1]; [constructor|].
  destruct (runes_cons c0 s1) as (r & bs & rest & E & _ & Hl & Hshape).
  rewrite E. constructor; [|apply IH, Hl]. cbn [fst snd]. intros Hsp.
  destruct Hshape as [[-> Hr] | [Hne Hh]].
  - apply cleanToken_nonempty; [discriminate|].
    unfold noSpaceBytes. cbn [list_ascii_of_string forallb].
    rewrite andb_true_r.
    destruct (byteZ c0 <? 128) eqn:E0.
    + subst r. apply Z.ltb_lt in E0.
      rewrite (asciiSpace_IsSpace _ E0), Hsp. reflexivity.
    + apply Z.ltb_ge in E0.
      destruct (asciiSpace (byteZ c0)) eqn:Ea; [|reflexivity].
      apply asciiSpace_low in Ea. lia.
  - apply cleanToken_nonempty; [exact Hne|apply highBytes_noSpace, Hh].
Qed.

Lemma list_ascii_app (a b : string) :
  list_ascii_of_string (a +:+ b)
  = list_ascii_of_string a ++ list_ascii_of_string b.
Proof.
  induction a as [|x a IH]; [reflexivity|].
  change (String x a +:+ b) with (String x (a +:+ b)).
  cbn [list_ascii_of_string app]. rewrite IH. reflexivity.
Qed.

Lemma cleanToken_app (a b : string) :
  cleanToken a = true → cleanToken b = true → cleanToken (a +:+ b) = true.
Proof.
  unfold cleanToken, noSpaceBytes. intros Ha Hb.
  apply andb_true_iff in Ha as [Ha1 Ha2].
  apply andb_true_iff in Hb as [Hb1 Hb2].
  rewrite list_ascii_app, forallb_app, Ha2, Hb2.
  destruct a as [|x a]; [discriminate|]. reflexivity.
Qed.

Lemma splitFields_clean (ps : list (bool * string)) :
  Forall (fun p => fst p = false → cleanToken (snd p) = true) ps →
  ∀ cur : option string,
    (∀ w, cur = Some w → cleanToken w = true) →
    Forall (fun t => cleanToken t = true) (splitFields ps cur).
Proof.
  induction 1 as [|[b w] ps Hp Hps IH]; intros cur Hcur.
  - cbn [splitFields]. destruct cur; [|constructor].
    constructor; [auto|constructor].
  - cbn [fst snd] in Hp. destruct b; cbn [splitFields].
    + destruct cur as [c|].
      * constructor; [auto|]. apply IH. discriminate.
      * apply IH. discriminate.
    + apply IH. intros t [= <-]. destruct cur as [c|]; [|auto].
      apply cleanToken_app; auto.
Qed.

(** Every token that [Fields] returns is not empty and holds no ASCII
    white space. *)
Lemma Fields_clean (s : string) :
  Forall (fun t => cleanToken t = true) (Fields s).
Proof.
  unfold Fields, FieldsFunc. destruct (isASCII s) eqn:A.
  - apply splitFields_clean; [|discriminate].
    clear A. induction (list_ascii_of_string s) as [|c l IH]; [constructor|].
    cbn [map]. constructor; [|exact IH]. cbn [fst snd]. intros Hc.
    apply cleanToken_nonempty; [discriminate|].
    unfold noSpaceBytes. cbn [list_ascii_of_string forallb].
    rewrite Hc. reflexivity.
  - apply splitFields_clean; [|discriminate].
    pose proof (runes_clean s) as H. induction H as [|[r w] l Hp Hl IH].
    + constructor.
    + cbn [map fst snd]. constructor; [exact Hp|exact IH].
Qed.

Lemma nth_clean (toks : list string) (i : nat) :
  Forall (fun t => cleanToken t = true) toks →
  (i < length toks)%nat →
  cleanToken (nth i toks EmptyString) = true.
Proof.
  intros H. revert i. induction H as [|t toks Ht Hts IH]; intros i Hi.
  - cbn [length] in Hi. lia.
  - destruct i as [|i]; [exact Ht|]. cbn [nth]. apply IH.
    cbn [length] in Hi. lia.
Qed.

Lemma handleLine_clean (uptime : Z) (sv : server) (line : string) :
  cleanStore (data (sv_store sv)) →
  cleanStore (data (sv_store (fst (fst (handleLine uptime sv line))))).
Proof.
  intros Hc.
  destruct (handleLine_effect uptime sv line)
    as (_ & _ & _ & _ & _ & _ & _ & Hd & H4).
  rewrite Hd. clear Hd.
  destruct (isPutOk (line, snd (fst (handleLine uptime sv line)))).
  - specialize (H4 eq_refl). intros k v Hkv.
    assert (Hk : cleanToken (keyOf line) = true)
      by (apply nth_clean; [apply Fields_clean|lia]).
    assert (Hv : cleanToken (valueOf line) = true)
      by (apply nth_clean; [apply Fields_clean|lia]).
    destruct (decide (keyOf line = k)) as [<-|Hne].
    + rewrite lookup_insert_eq in Hkv. injection Hkv as <-. auto.
    + rewrite lookup_insert_ne in Hkv by exact Hne. apply (Hc k v Hkv).
  - destruct (isDelHit (line, snd (fst (handleLine uptime sv line))));
      [|exact Hc].
    intros k v Hkv. destruct (decide (keyOf line = k)) as [<-|Hne].
    + rewrite lookup_delete_eq in Hkv. discriminate.
    + rewrite lookup_delete_ne in Hkv by exact Hne. apply (Hc k v Hkv).
Qed.

(** X14.  Only tokens get into the map: whatever lines a fresh server is sent,
    every key and every value it holds is a non-empty string without
    ASCII white space (no space, tab, CR or LF), so that a value is
    always answered as a single line; a request keeps this property of
    the map. *)
Theorem stored_tokens_clean
    (addr : string) (now : Z) (reqs : list (Z * string)) :
  cleanStore (data (sv_store (fst (serve reqs (newServer addr now)))))
  ∧ (∀ (uptime : Z) (sv : server) (line : string),
       cleanStore (data (sv_store sv)) →
       cleanStore (data (sv_store (fst (fst (handleLine uptime sv line)))))).
Proof.
  split; [|intros uptime sv line; apply handleLine_clean].
  assert (H0 : cleanStore (data (sv_store (newServer addr now)))).
  { intros k v Hkv. cbn in Hkv. rewrite lookup_empty in Hkv. discriminate. }
  revert H0. generalize (newServer addr now).
  induction reqs as [|[u line] reqs IH]; intros sv Hsv; [exact Hsv|].
  cbn [serve]. pose proof (handleLine_clean u sv line Hsv) as H1.
  destruct (handleLine u sv line) as [[sv1 out] fl]. cbn [fst] in H1.
  specialize (IH sv1 H1). destruct (serve reqs sv1) as [sv2 log].
  exact IH.
Qed.

(** ** Further properties: requests on the wire *)

Lemma append_cons (a : ascii) (s t : string) :
  String a s +:+ t = String a (s +:+ t).
Proof. reflexivity. Qed.

Lemma append_nil_l (t : string) : EmptyString +:+ t = t.
Proof. reflexivity. Qed.

Lemma append_nil_r (t : string) : t +:+ EmptyString = t.
Proof.
  induction t as [|a t IH]; [reflexivity|]. rewrite append_cons, IH.
  reflexivity.
Qed.

(** Decoding the first rune does not depend on what follows an ASCII
    byte. *)
Lemma decode_stable (c0 c : ascii) (t1 s : string) :
  byteZ c < 128 →
  DecodeRuneInString (String c0 (t1 +:+ String c s))
  = DecodeRuneInString (String c0 t1).
Proof.
  intros Hc. unfold DecodeRuneInString.
  destruct (byteZ c0 <? 128); [reflexivity|].
  destruct (firstInfo (byteZ c0)) as [[[sz lo] hi]|] eqn:EF; [|reflexivity].
  destruct (firstInfo_cases _ _ _ _ EF) as [Hsz Hlo].
  assert (Hlow : (byteZ c <? lo) = true) by (apply Z.ltb_lt; lia).
  assert (Hcont : isCont (byteZ c) = false)
    by (unfold isCont; apply andb_false_iff; left; apply Z.leb_gt; lia).
  destruct t1 as [|c1 [|c2 [|c3 t4]]]; destruct Hsz as [-> | [-> | ->]];
    rewrite ?append_cons, ?append_nil_l;
    cbn [String.length Nat.ltb Nat.leb];
    rewrite ?Hlow, ?Hcont; cbn [orb negb];
    repeat match goal with
           | |- context [if ?b then _ else _] => destruct b eqn:?
           end;
    try reflexivity; try discriminate.
Qed.

Lemma runes_app_ascii (t s : string) (c : ascii) :
  byteZ c < 128 →
  runes (t +:+ String c s) = runes t ++ runes (String c s).
Proof.
  intros Hc. remember (runes (String c s)) as tl eqn:Htl.
  induction t as [t IH] using string_length_ind.
  destruct t as [|c0 t1]; [rewrite Htl; reflexivity|].
  rewrite append_cons. cbn [runes]. rewrite (decode_stable _ _ _ _ Hc).
  destruct (DecodeRuneInString (String c0 t1)) as [r n] eqn:E.
  destruct (decode_shape _ _ _ _ E)
    as [[-> Hr] | (H0 & c1 & s2 & -> & H1 & [-> | (c2 & s3 & -> & H2 &
         [-> | (c3 & s4 & -> & H3 & ->)])])].
  - assert (IH1 := IH t1 ltac:(cbn [String.length]; lia)).
    destruct t1 as [|c1 t2].
    + rewrite append_nil_l in *. rewrite Htl. reflexivity.
    + rewrite append_cons in *. cbn [app]. rewrite <- IH1. reflexivity.
  - rewrite !append_cons. cbn [app].
    rewrite <- (IH s2 ltac:(cbn [String.length]; lia)). reflexivity.
  - rewrite !append_cons. cbn [app].
    rewrite <- (IH s3 ltac:(cbn [String.length]; lia)). reflexivity.
  - rewrite !append_cons. cbn [app].
    rewrite <- (IH s4 ltac:(cbn [String.length]; lia)). reflexivity.
Qed.

(** The byte-wise path of [Fields] and its path through runes agree. *)
Lemma Fields_FieldsFunc (s : string) : Fields s = FieldsFunc s IsSpace.
Proof.
  unfold Fields. destruct (isASCII s) eqn:A; [|reflexivity].
  unfold FieldsFunc. rewrite (runes_ascii s A). f_equal.
  unfold isASCII in A. revert A.
  induction (list_ascii_of_string s) as [|c l IH]; [reflexivity|].
  cbn [forallb map fst snd]. intros A. apply andb_true_iff in A as [Ac Al].
  rewrite (IH Al), (asciiSpace_IsSpace _ (proj1 (Z.ltb_lt _ _) Ac)).
  reflexivity.
Qed.

Lemma splitFields_run (ps rest : list (bool * string)) :
  forallb (fun p => negb (fst p)) ps = true →
  ∀ w : string,
    splitFields (ps ++ rest) (Some w)
    = splitFields rest (Some (w +:+ concatStrings (map snd ps))).
Proof.
  induction ps as [|[b x] ps IH]; intros H w.
  - cbn [app map concatStrings]. rewrite append_nil_r. reflexivity.
  - cbn [forallb fst] in H. apply andb_true_iff in H as [Hb Hps].
    destruct b; [discriminate|].
    cbn [app splitFields map snd concatStrings].
    rewrite (IH Hps), append_assoc. reflexivity.
Qed.

Lemma map_snd_flag (f : Z → bool) (l : list (Z * string)) :
  map snd (map (fun p => (f (fst p), snd p)) l) = map snd l.
Proof.
  induction l as [|p l IH]; [reflexivity|]. cbn [map snd]. rewrite IH.
  reflexivity.
Qed.

Lemma splitFields_field (t : string) (rest : list (bool * string)) :
  isField t = true →
  splitFields (map (fun p => (IsSpace (fst p), snd p)) (runes t) ++ rest) None
  = splitFields rest (Some t).
Proof.
  unfold isField. intros H. apply andb_true_iff in H as [Hne Hsp].
  pose proof (runes_concat t) as Hcat.
  destruct t as [|c0 t1]; [discriminate|].
  destruct (runes_cons c0 t1) as (r & bs & tl & E & _).
  rewrite E in *. cbn [map forallb fst snd concatStrings] in *.
  apply andb_true_iff in Hsp as [Hr Htl].
  apply negb_true_iff in Hr. rewrite Hr. cbn [app splitFields].
  rewrite splitFields_run.
  - rewrite map_snd_flag, Hcat. reflexivity.
  - clear -Htl. induction (runes tl) as [|p l IH]; [reflexivity|].
    cbn [forallb map fst] in *. apply andb_true_iff in Htl as [Hp Hl].
    rewrite Hp, (IH Hl). reflexivity.
Qed.

Lemma Fields_cons (t s : string) :
  isField t = true →
  Fields (t +:+ String " " s) = t :: Fields s.
Proof.
  intros Ht. rewrite !Fields_FieldsFunc. unfold FieldsFunc.
  rewrite runes_app_ascii by (vm_compute; reflexivity).
  rewrite map_app, (splitFields_field _ _ Ht).
  destruct s; reflexivity.
Qed.

Lemma Fields_single (t : string) : isField t = true → Fields t = [t].
Proof.
  intros Ht. rewrite Fields_FieldsFunc. unfold FieldsFunc.
  rewrite <- (app_nil_r (map _ (runes t))).
  rewrite (splitFields_field _ _ Ht). reflexivity.
Qed.

Lemma concat_clean (l : list string) :
  l ≠ [] → Forall (fun t => cleanToken t = true) l →
  cleanToken (concatStrings l) = true.
Proof.
  intros Hne H. induction H as [|t l Ht Hl IH]; [congruence|].
  cbn [concatStrings]. destruct l as [|t' l'].
  - cbn [concatStrings]. rewrite append_nil_r. exact Ht.
  - apply cleanToken_app; [exact Ht|]. apply IH. discriminate.
Qed.

Lemma isField_clean (t : string) : isField t = true → cleanToken t = true.
Proof.
  unfold isField. intros H. apply andb_true_iff in H as [Hne Hsp].
  rewrite <- (runes_concat t). apply concat_clean.
  - destruct t as [|c0 t1]; [discriminate|].
    destruct (runes_cons c0 t1) as (r & bs & tl & E & _). rewrite E.
    discriminate.
  - pose proof (runes_clean t) as Hc.
    induction Hc as [|[r w] l Hp Hl IH]; [constructor|].
    cbn [forallb fst map snd] in *. apply andb_true_iff in Hsp as [Hr Hl'].
    constructor; [apply Hp, negb_true_iff, Hr|apply IH, Hl'].
Qed.

Lemma TrimRight_clean (v : string) :
  cleanToken v = true → TrimRight v crlf = v.
Proof.
  unfold cleanToken, noSpaceBytes. intros H.
  apply andb_true_iff in H as [_ H]. induction v as [|c v IH]; [reflexivity|].
  cbn [list_ascii_of_string forallb] in H.
  apply andb_true_iff in H as [Hc Hv]. cbn [TrimRight]. rewrite (IH Hv).
  destruct v as [|c' v']; [|reflexivity].
  assert (Hn : inCutset crlf c = false).
  { unfold inCutset, crlf. cbn [list_ascii_of_string existsb].
    apply negb_true_iff in Hc. rewrite orb_false_r. apply orb_false_iff.
    unfold asciiSpace in Hc.
    split; apply Ascii.eqb_neq; intros ->; vm_compute in Hc; discriminate. }
  rewrite Hn. reflexivity.
Qed.

Lemma TrimRight_app (p v cutset : string) :
  TrimRight v cutset ≠ EmptyString →
  TrimRight (p +:+ v) cutset = p +:+ TrimRight v cutset.
Proof.
  intros Hne. induction p as [|a p IH]; [reflexivity|].
  rewrite !append_cons. cbn [TrimRight]. rewrite IH.
  destruct (TrimRight v cutset) as [|x y]; [congruence|].
  destruct p; reflexivity.
Qed.

Lemma TrimRight_line (p v : string) :
  cleanToken v = true → TrimRight (nl (p +:+ v)) crlf = p +:+ v.
Proof.
  intros Hv. unfold nl. rewrite TrimRight_snoc by reflexivity.
  rewrite TrimRight_app; rewrite (TrimRight_clean _ Hv); [reflexivity|].
  unfold cleanToken in Hv. destruct v; [discriminate|discriminate].
Qed.

(** X15.  What is PUT over the wire is what GET returns: for a key and a value
    that are not empty and hold no white space, the line
    [KV/1.0 PUT <key> <value>] splits into exactly these four tokens, and
    followed by [KV/1.0 GET <key>] it is answered [201 CREATED] or
    [200 OK], then [200 OK <value>]. *)
Theorem wire_roundtrip (u1 u2 : Z) (sv : server) (k v : string) :
  isField k = true → isField v = true →
  tokensOf (nl ("KV/1.0 PUT " +:+ k +:+ " " +:+ v)) = [Version; "PUT"; k; v]
  ∧ snd (connLoop [(u1, nl ("KV/1.0 PUT " +:+ k +:+ " " +:+ v));
                   (u2, nl ("KV/1.0 GET " +:+ k))] sv)
    = [nl (match data (sv_store sv) !! k with
           | None => "201 CREATED"
           | Some _ => "200 OK"
           end);
       nl ("200 OK " +:+ v)].
Proof.
  intros Hk Hv.
  assert (HP : tokensOf (nl ("KV/1.0 PUT " +:+ k +:+ " " +:+ v))
               = [Version; "PUT"; k; v]).
  { unfold tokensOf.
    replace ("KV/1.0 PUT " +:+ k +:+ " " +:+ v)
      with (("KV/1.0 PUT " +:+ k +:+ " ") +:+ v)
      by (rewrite !append_assoc; reflexivity).
    rewrite (TrimRight_line _ _ (isField_clean _ Hv)).
    rewrite !append_assoc.
    change ("KV/1.0 PUT " +:+ k +:+ " " +:+ v)
      with ("KV/1.0" +:+ String " " ("PUT" +:+ String " "
              (k +:+ String " " v))).
    rewrite !Fields_cons by (assumption || reflexivity).
    rewrite (Fields_single _ Hv). reflexivity. }
  assert (HG : tokensOf (nl ("KV/1.0 GET " +:+ k)) = [Version; "GET"; k]).
  { unfold tokensOf. rewrite (TrimRight_line _ _ (isField_clean _ Hk)).
    change ("KV/1.0 GET " +:+ k)
      with ("KV/1.0" +:+ String " " ("GET" +:+ String " " k)).
    rewrite !Fields_cons by reflexivity.
    rewrite (Fields_single _ Hk). reflexivity. }
  split; [exact HP|]. cbn [connLoop].
  rewrite (handle_put _ _ _ _ _ _ _ HP eq_refl).
  rewrite (handle_get _ _ _ _ _ HG eq_refl).
  cbn [sv_store incr withStore data]. rewrite lookup_insert_eq. reflexivity.
Qed.

Lemma readLines_noLF (tail cur : string) :
  noLF tail = true → readLines tail cur = [].
Proof.
  unfold noLF. revert cur. induction tail as [|c t IH]; intros cur H;
    [reflexivity|].
  cbn [list_ascii_of_string forallb] in H.
  apply andb_true_iff in H as [Hc Ht]. apply negb_true_iff in Hc.
  cbn [readLines]. rewrite Hc. apply IH, Ht.
Qed.

Lemma readLines_app_noLF (input tail : string) :
  noLF tail = true →
  ∀ cur, readLines (input +:+ tail) cur = readLines input cur.
Proof.
  intros Ht. induction input as [|c t IH]; intros cur.
  - rewrite append_nil_l. apply readLines_noLF, Ht.
  - rewrite append_cons. cbn [readLines]. rewrite !IH. reflexivity.
Qed.

Lemma readLines_line (l rest cur : string) :
  noLF l = true →
  readLines (nl l +:+ rest) cur
  = (cur +:+ nl l) :: readLines rest EmptyString.
Proof.
  unfold noLF, nl. revert cur. induction l as [|c l IH]; intros cur H.
  - rewrite append_nil_l, append_cons, append_nil_l. cbn [readLines].
    rewrite Ascii.eqb_refl. reflexivity.
  - cbn [list_ascii_of_string forallb] in H.
    apply andb_true_iff in H as [Hc Hl]. apply negb_true_iff in Hc.
    rewrite !append_cons. cbn [readLines]. rewrite Hc, (IH _ Hl).
    rewrite append_assoc. reflexivity.
Qed.

(** X16.  Lines are framed by line feeds.  Lines without a line feed, each
    sent with one, are read back one by one; and bytes that no line feed
    follows are dropped: a connection closed in the middle of a line is
    handled as if that line had not been sent. *)
Theorem stream_framing
    (clock : nat → Z) (ls : list string) (tail : string) (sv : server) :
  forallb noLF ls = true → noLF tail = true →
  readLines (concatStrings (map nl ls)) EmptyString = map nl ls
  ∧ readLines (concatStrings (map nl ls) +:+ tail) EmptyString = map nl ls
  ∧ handleStream clock (concatStrings (map nl ls) +:+ tail) sv
    = handleConn (imap (fun i line => (clock i, line)) (map nl ls)) sv.
Proof.
  intros Hls Ht.
  assert (H1 : readLines (concatStrings (map nl ls)) EmptyString = map nl ls).
  { induction ls as [|l ls IH]; [reflexivity|].
    cbn [forallb map concatStrings] in *.
    apply andb_true_iff in Hls as [Hl Hls].
    rewrite (readLines_line _ _ _ Hl), (IH Hls). reflexivity. }
  assert (H2 : readLines (concatStrings (map nl ls) +:+ tail) EmptyString
               = map nl ls)
    by (rewrite (readLines_app_noLF _ _ Ht); exact H1).
  split; [exact H1|]. split; [exact H2|].
  unfold handleStream. rewrite H2. reflexivity.
Qed.

Lemma tokensOf_framed (line : string) :
  tokensOf (nl (Version +:+ " " +:+ line)) = Version :: tokensOf line.
Proof.
  unfold tokensOf, nl. rewrite TrimRight_snoc by reflexivity.
  change (Version +:+ " " +:+ line) with ("KV/1.0 " +:+ line).
  destruct (TrimRight line crlf) as [|x y] eqn:E.
  - assert (Hp : TrimRight ("KV/1.0 " +:+ line) crlf = "KV/1.0 ").
    { clear -E. change ("KV/1.0 " +:+ line)
        with (String "K" (String "V" (String "/" (String "1" (String "."
                (String "0" (String " " line))))))).
      cbn [TrimRight]. rewrite E. reflexivity. }
    rewrite Hp. reflexivity.
  - rewrite TrimRight_app by (rewrite E; discriminate). rewrite E.
    change ("KV/1.0 " +:+ String x y)
      with ("KV/1.0" +:+ String " " (String x y)).
    rewrite Fields_cons by reflexivity. reflexivity.
Qed.

Ltac not_426 :=
  let H := fresh "H" in
  cbn [fst snd]; intros H;
  apply (f_equal (fun l => match l with
                           | [r] => HasPrefix r "426"
                           | _ => false
                           end)) in H;
  cbv in H; discriminate H.

Lemma answer_426 (uptime : Z) (sv : server) (line : string) :
  snd (fst (handleLine uptime sv line)) = [nl "426 UPGRADE_REQUIRED"] →
  nonBlank line = true
  ∧ (2 ≤ length (tokensOf line))%nat
  ∧ nth 0 (tokensOf line) EmptyString ≠ Version.
Proof.
  unfold nonBlank, tokensOf, handleLine.
  destruct (String.eqb (TrimRight line crlf) EmptyString) eqn:Eb;
    [discriminate|].
  remember (Fields (TrimRight line crlf)) as toks eqn:Htoks.
  destruct sv as [a [d] ss].
  destruct (length toks <? 2)%nat eqn:E2; [not_426|].
  apply Nat.ltb_ge in E2.
  destruct (String.eqb (nth 0 toks EmptyString) Version) eqn:Ev; cbn [negb].
  2:{ intros _. apply String.eqb_neq in Ev. auto. }
  remember (ToUpper (nth 1 toks EmptyString)) as cmd eqn:Hcmd.
  destruct (String.eqb cmd "PUT").
  { destruct (length toks <? 4)%nat; [not_426|].
    unfold Store.put. cbn [sv_store incr withStore data].
    destruct (negb _); not_426. }
  destruct (String.eqb cmd "GET").
  { destruct (negb (length toks =? 3)%nat); [not_426|].
    unfold Store.get. cbn [sv_store incr withStore data].
    destruct (d !! nth 2 toks EmptyString); not_426. }
  destruct (String.eqb cmd "DEL").
  { destruct (negb (length toks =? 3)%nat); [not_426|].
    unfold Store.del. cbn [sv_store incr withStore data].
    destruct (d !! nth 2 toks EmptyString); not_426. }
  destruct (String.eqb cmd "STATS").
  { destruct (negb (length toks =? 2)%nat); [not_426|].
    unfold snapshotStats, Store.size. not_426. }
  destruct (String.eqb cmd "QUIT"); not_426.
Qed.

(** X17.  [426 UPGRADE_REQUIRED] is the answer to a version mismatch and to
    nothing else: a line gets it exactly when it has at least two tokens
    and its first token is not [KV/1.0]. *)
Theorem upgrade_required_iff (uptime : Z) (sv : server) (line : string) :
  snd (fst (handleLine uptime sv line)) = [nl "426 UPGRADE_REQUIRED"]
  ↔ (2 ≤ length (tokensOf line))%nat
    ∧ nth 0 (tokensOf line) EmptyString ≠ Version.
Proof.
  split.
  - intros H. apply (answer_426 uptime sv line H).
  - intros [Hl Hv].
    destruct (tokensOf line) as [|t0 [|t1 args]] eqn:Ht;
      [cbn [length] in Hl; lia | cbn [length] in Hl; lia |].
    rewrite (handle_version _ _ _ _ _ _ Ht Hv). reflexivity.
Qed.

(** X18.  The client and the server agree on the version: a request that the
    client sends for a line of input (one without a line feed, once
    trimmed) is received as one line whose first token is [KV/1.0]; the
    server counts it, answers it with exactly one response, and that
    response is not [426 UPGRADE_REQUIRED]. *)
Theorem client_request_accepted
    (text msg : string) (uptime : Z) (sv : server) :
  clientMsg text = Some msg →
  noLF (TrimSpace text) = true →
  readLines msg EmptyString = [msg]
  ∧ tokensOf msg = Version :: tokensOf (TrimSpace text)
  ∧ ∃ r : string,
      snd (fst (handleLine uptime sv msg)) = [r]
      ∧ r ≠ nl "426 UPGRADE_REQUIRED"
      ∧ ReqCount (sv_stats (fst (fst (handleLine uptime sv msg))))
        = wrap64 (ReqCount (sv_stats sv) + 1).
Proof.
  unfold clientMsg. intros Hm Hlf.
  destruct (String.eqb (TrimSpace text) EmptyString); [discriminate|].
  injection Hm as <-.
  set (line := TrimSpace text) in *.
  pose proof (tokensOf_framed line) as Ht.
  split.
  { assert (Hl : noLF (Version +:+ " " +:+ line) = true).
    { unfold noLF in *. rewrite !list_ascii_app, !forallb_app, Hlf.
      reflexivity. }
    pose proof (readLines_line _ EmptyString EmptyString Hl) as R.
    rewrite append_nil_r in R. exact R. }
  split; [exact Ht|].
  set (msg := nl (Version +:+ " " +:+ line)) in *.
  destruct (handleLine_effect uptime sv msg)
    as (_ & _ & _ & _ & Hreq & Hlen & _).
  assert (Hnb : nonBlank msg = true)
    by (unfold nonBlank; rewrite (tokens_nonblank _ _ _ Ht); reflexivity).
  rewrite Hnb in Hreq, Hlen.
  destruct (snd (fst (handleLine uptime sv msg))) as [|r [|r' out]] eqn:Eo;
    try discriminate Hlen.
  exists r. split; [reflexivity|]. split; [|exact Hreq].
  intros ->. destruct (answer_426 _ _ _ Eo) as (_ & _ & Hv).
  rewrite Ht in Hv. apply Hv. reflexivity.
Qed.


Ltac by_answer :=
  let H := fresh "H" in
  let P := fresh "P" in
  cbn [fst snd]; intros H P; injection H as <-;
  first [reflexivity | (cbv in P; discriminate P)].

(** X19.  An error answer has no effect: when a line is answered with a status
    in the 400s ([400 BAD_REQUEST], [404 NOT_FOUND],
    [426 UPGRADE_REQUIRED]), the connection stays open and nothing has
    changed but the request counter. *)
Theorem error_answers_no_effect
    (uptime : Z) (sv : server) (line r : string) :
  snd (fst (handleLine uptime sv line)) = [r] →
  HasPrefix r "4" = true →
  handleLine uptime sv line = (incr FReqCount 1 sv, [r], Continue).
Proof.
  unfold handleLine.
  destruct (String.eqb (TrimRight line crlf) EmptyString) eqn:Eb;
    [discriminate|].
  remember (Fields (TrimRight line crlf)) as toks eqn:Htoks.
  destruct sv as [a [d] ss].
  destruct (length toks <? 2)%nat eqn:E2; [by_answer|].
  destruct (String.eqb (nth 0 toks EmptyString) Version) eqn:Ev; cbn [negb];
    [|by_answer].
  remember (ToUpper (nth 1 toks EmptyString)) as cmd eqn:Hcmd.
  destruct (String.eqb cmd "PUT").
  { destruct (length toks <? 4)%nat; [by_answer|].
    unfold Store.put. cbn [sv_store incr withStore data].
    destruct (negb _); by_answer. }
  destruct (String.eqb cmd "GET").
  { destruct (negb (length toks =? 3)%nat); [by_answer|].
    unfold Store.get. cbn [sv_store incr withStore data].
    destruct (d !! nth 2 toks EmptyString); by_answer. }
  destruct (String.eqb cmd "DEL").
  { destruct (negb (length toks =? 3)%nat); [by_answer|].
    unfold Store.del. cbn [sv_store incr withStore data].
    destruct (d !! nth 2 toks EmptyString); by_answer. }
  destruct (String.eqb cmd "STATS").
  { destruct (negb (length toks =? 2)%nat); [by_answer|].
    unfold snapshotStats, Store.size. by_answer. }
  destruct (String.eqb cmd "QUIT"); by_answer.
Qed.

End Server.

(** ** The properties on sample requests *)

Lemma C1_witness :
  ∃ (sv' : server) (r1 r2 : string),
    connLoop upperUnmapped marshalBlank
      [(0, nl "KV/1.0 PUT k a"); (1, nl "KV/1.0 put k b");
       (2, nl "KV/1.0 GET k")]
      (newServer DefaultAddr 0)
    = (sv', [r1; r2; nl "200 OK b"]).
Proof.
  refine (proj2 (C1_last_write_wins upperUnmapped marshalBlank 0 1 2
            (newServer DefaultAddr 0) _ _ _ "PUT" "put" "GET" "k" "a" "b"
            _ _ _ _ _ _)); reflexivity.
Defined.

Lemma C2_witness :
  snd (connLoop upperUnmapped marshalBlank
         [(0, nl "KV/1.0 GET k"); (1, nl "KV/1.0 PUT k a");
          (2, nl "KV/1.0 PUT k b")]
         (newServer DefaultAddr 0))
  = [nl "404 NOT_FOUND"; nl "201 CREATED"; nl "200 OK"].
Proof.
  refine (proj2 (proj2 (proj2
            (C2_existence_signalling upperUnmapped marshalBlank 0 1 2
               (newServer DefaultAddr 0) _ _ _ "GET" "PUT" "PUT" "k" "a" "b"
               _ _ _ _ _ _ _)))); reflexivity.
Defined.

Lemma C3_witness :
  ∃ sv1 sv2 : server,
    handleLine upperUnmapped marshalBlank 1
      (fst (fst (handleLine upperUnmapped marshalBlank 0
                   (newServer DefaultAddr 0) (nl "KV/1.0 PUT k a"))))
      (nl "KV/1.0 DEL k")
    = (sv1, [nl "204 NO_CONTENT"], Continue)
    ∧ fst (Store.size (sv_store sv1)) = 1 - 1
    ∧ handleLine upperUnmapped marshalBlank 2 sv1 (nl "KV/1.0 del k")
      = (sv2, [nl "404 NOT_FOUND"], Continue)
    ∧ fst (Store.size (sv_store sv2)) = fst (Store.size (sv_store sv1)).
Proof.
  refine (C3_del_semantics upperUnmapped marshalBlank 1 2
            (fst (fst (handleLine upperUnmapped marshalBlank 0
                         (newServer DefaultAddr 0) (nl "KV/1.0 PUT k a"))))
            (nl "KV/1.0 DEL k") (nl "KV/1.0 del k") "DEL" "del" "k"
            _ _ _ _ _); [vm_compute; eauto | reflexivity..].
Defined.

Lemma C4_witness :
  ∃ sv' : server,
    handleLine upperUnmapped marshalBlank 0 (newServer DefaultAddr 0)
      (nl "KV/1.0 GET a b")
    = (sv', [nl "400 BAD_REQUEST"], Continue)
    ∧ sv_store sv' = sv_store (newServer DefaultAddr 0).
Proof.
  refine (proj1 (C4_arity_enforced upperUnmapped marshalBlank 0
                   (newServer DefaultAddr 0) (nl "KV/1.0 GET a b") "GET"
                   ["a"; "b"] _ _)); [reflexivity|].
  right. left. split; [reflexivity|]. vm_compute. lia.
Defined.

(** C4 with exact arities for PUT and QUIT does not hold of the handler:
    a PUT line of five tokens, with the right version, is not answered
    [400 BAD_REQUEST] but executed, and a QUIT line of three tokens is
    answered [200 OK bye]. *)
Lemma C4_counterexample :
  tokensOf (nl "KV/1.0 PUT k v extra") = [Version; "PUT"; "k"; "v"; "extra"]
  ∧ ToUpper upperUnmapped "PUT" = "PUT"
  ∧ length (tokensOf (nl "KV/1.0 PUT k v extra")) ≠ 4%nat
  ∧ snd (fst (handleLine upperUnmapped marshalBlank 0
                (newServer DefaultAddr 0) (nl "KV/1.0 PUT k v extra")))
    = [nl "201 CREATED"]
  ∧ snd (fst (handleLine upperUnmapped marshalBlank 0
                (newServer DefaultAddr 0) (nl "KV/1.0 PUT k v extra")))
    ≠ [nl "400 BAD_REQUEST"]
  ∧ sv_store (fst (fst (handleLine upperUnmapped marshalBlank 0
                          (newServer DefaultAddr 0)
                          (nl "KV/1.0 PUT k v extra"))))
    ≠ sv_store (newServer DefaultAddr 0)
  ∧ length (tokensOf (nl "KV/1.0 QUIT now")) ≠ 2%nat
  ∧ handleLine upperUnmapped marshalBlank 0 (newServer DefaultAddr 0)
      (nl "KV/1.0 QUIT now")
    = (incr FReqCount 1 (newServer DefaultAddr 0), [nl "200 OK bye"], Return).
Proof.
  repeat split; try reflexivity; vm_compute; intros H; discriminate H.
Qed.

Lemma C5_witness :
  fst (snapshotStats 9
         (fst (serve upperUnmapped marshalBlank
                 [(0, nl "KV/1.0 PUT a 1"); (1, nl "KV/1.0 PUT b 2 3");
                  (2, nl "KV/1.0 GET a"); (3, nl "KV/1.0 GET zz");
                  (4, nl "KV/1.0 DEL b"); (5, nl "KV/1.0 DEL b");
                  (6, nl "KV/0.9 PUT c 1"); (7, nl "KV/1.0 PUT a 4")]
                 (newServer DefaultAddr 0)))) !! "put_count"%string
  = Some (AInt64 3)
  ∧ fst (snapshotStats 9
           (fst (serve upperUnmapped marshalBlank
                   [(0, nl "KV/1.0 PUT a 1"); (1, nl "KV/1.0 PUT b 2 3");
                    (2, nl "KV/1.0 GET a"); (3, nl "KV/1.0 GET zz");
                    (4, nl "KV/1.0 DEL b"); (5, nl "KV/1.0 DEL b");
                    (6, nl "KV/0.9 PUT c 1"); (7, nl "KV/1.0 PUT a 4")]
                   (newServer DefaultAddr 0)))) !! "get_count"%string
    = Some (AInt64 1)
  ∧ fst (snapshotStats 9
           (fst (serve upperUnmapped marshalBlank
                   [(0, nl "KV/1.0 PUT a 1"); (1, nl "KV/1.0 PUT b 2 3");
                    (2, nl "KV/1.0 GET a"); (3, nl "KV/1.0 GET zz");
                    (4, nl "KV/1.0 DEL b"); (5, nl "KV/1.0 DEL b");
                    (6, nl "KV/0.9 PUT c 1"); (7, nl "KV/1.0 PUT a 4")]
                   (newServer DefaultAddr 0)))) !! "del_count"%string
    = Some (AInt64 1)
  ∧ fst (snapshotStats 9
           (fst (serve upperUnmapped marshalBlank
                   [(0, nl "KV/1.0 PUT a 1"); (1, nl "KV/1.0 PUT b 2 3");
                    (2, nl "KV/1.0 GET a"); (3, nl "KV/1.0 GET zz");
                    (4, nl "KV/1.0 DEL b"); (5, nl "KV/1.0 DEL b");
                    (6, nl "KV/0.9 PUT c 1"); (7, nl "KV/1.0 PUT a 4")]
                   (newServer DefaultAddr 0)))) !! "keys"%string
    = Some (AInt 1).
Proof.
  exact (proj1 (C5_exact_counters upperUnmapped marshalBlank DefaultAddr 0 9
                  [(0, nl "KV/1.0 PUT a 1"); (1, nl "KV/1.0 PUT b 2 3");
                   (2, nl "KV/1.0 GET a"); (3, nl "KV/1.0 GET zz");
                   (4, nl "KV/1.0 DEL b"); (5, nl "KV/1.0 DEL b");
                   (6, nl "KV/0.9 PUT c 1"); (7, nl "KV/1.0 PUT a 4")])).
Defined.

(** C5 with the well-formed PUT of the specification (exactly four
    tokens) does not hold of the handler: a PUT line of five tokens is no
    such PUT, and it is counted. *)
Lemma C5_counterexample :
  countIf (specWellFormedPut upperUnmapped) [nl "KV/1.0 PUT b 2 3"] = 0
  ∧ fst (snapshotStats 0
           (fst (serve upperUnmapped marshalBlank
                   [(0, nl "KV/1.0 PUT b 2 3")] (newServer DefaultAddr 0))))
      !! "put_count"%string
    = Some (AInt64 1)
  ∧ AInt64 1 ≠ AInt64 0.
Proof.
  split; [reflexivity|]. split; [reflexivity|]. intros H. discriminate H.
Qed.

(** The tally of a sample sequence: three PUTs (one of five tokens), one
    GET that hits out of two, one DEL that hits out of two, one line
    with a wrong version; the key [a] is left. *)
Example tally_sample :
  tallyOf upperUnmapped
    [nl "KV/1.0 PUT a 1"; nl "KV/1.0 PUT b 2 3"; nl "KV/1.0 GET a";
     nl "KV/1.0 GET zz"; nl "KV/1.0 DEL b"; nl "KV/1.0 DEL b";
     nl "KV/0.9 PUT c 1"; nl "KV/1.0 PUT a 4"]
  = {| t_live := {[ "a"%string ]}; t_puts := 3; t_gets := 1; t_dels := 1 |}.
Proof. vm_compute. reflexivity. Qed.

Lemma C6_witness :
  ∃ sv' : server,
    handleLine upperUnmapped marshalBlank 0 (newServer DefaultAddr 0)
      (nl "KV/0.9 GET x")
    = (sv', [nl "426 UPGRADE_REQUIRED"], Continue)
    ∧ sv_store sv' = sv_store (newServer DefaultAddr 0)
    ∧ PutCount (sv_stats sv') = 0
    ∧ GetCount (sv_stats sv') = 0
    ∧ DelCount (sv_stats sv') = 0.
Proof.
  refine (C6_version_gating upperUnmapped marshalBlank 0
            (newServer DefaultAddr 0) (nl "KV/0.9 GET x") "KV/0.9" "GET"
            ["x"] _ _); [reflexivity|].
  vm_compute. intros H. discriminate H.
Defined.

Lemma C7_witness :
  handleLine upperUnmapped marshalBlank 0 (newServer DefaultAddr 0)
    (String CR (String LF EmptyString))
  = (newServer DefaultAddr 0, [], Continue)
  ∧ connLoop upperUnmapped marshalBlank
      [(0, String CR (String LF EmptyString)); (1, nl "KV/1.0 GET x")]
      (newServer DefaultAddr 0)
    = connLoop upperUnmapped marshalBlank [(1, nl "KV/1.0 GET x")]
        (newServer DefaultAddr 0).
Proof.
  refine (C7_empty_line upperUnmapped marshalBlank 0
            (newServer DefaultAddr 0) (String CR (String LF EmptyString))
            [(1, nl "KV/1.0 GET x")] _).
  reflexivity.
Defined.

Lemma C8_witness :
  ∃ sv' : server,
    handleLine upperUnmapped marshalBlank 0 (newServer DefaultAddr 0)
      (nl "KV/1.0 PUT k hello world again")
    = (sv', [nl "201 CREATED"], Continue)
    ∧ data (sv_store sv') = <["k"%string := "hello"%string]> ∅.
Proof.
  refine (C8_put_extra_tokens upperUnmapped marshalBlank 0
            (newServer DefaultAddr 0) (nl "KV/1.0 PUT k hello world again")
            "PUT" "k" "hello" ["world"; "again"] _ _); reflexivity.
Defined.

(** A line holding a no-break space (bytes 194, 160), a tab and a space. *)
Lemma C9_witness :
  tokensOf
    (String "194" (String "160" (String "009" (String " " (String LF
       EmptyString))))) = []
  ∧ handleLine upperUnmapped marshalBlank 0 (newServer DefaultAddr 0)
      (String "194" (String "160" (String "009" (String " " (String LF
         EmptyString)))))
    = (incr FReqCount 1 (newServer DefaultAddr 0),
       [nl "400 BAD_REQUEST"], Continue)
  ∧ ReqCount (sv_stats (incr FReqCount 1 (newServer DefaultAddr 0)))
    = wrap64 (0 + 1).
Proof.
  refine (C9_whitespace_line upperUnmapped marshalBlank 0
            (newServer DefaultAddr 0)
            (String "194" (String "160" (String "009" (String " "
               (String LF EmptyString))))) _ _).
  - vm_compute. intros H. discriminate H.
  - vm_compute. reflexivity.
Defined.

Lemma C10_witness :
  data (sv_store (fst (fst
    (handleLine upperUnmapped marshalBlank 0 (newServer DefaultAddr 0)
       (nl "KV/1.0 get k")))))
  = data (sv_store (newServer DefaultAddr 0)).
Proof.
  refine (proj1 (proj2
    (C10_reads_do_not_mutate upperUnmapped marshalBlank 0
       (newServer DefaultAddr 0) (nl "KV/1.0 get k") "get" "k" _ _)));
    reflexivity.
Defined.

(** A whole connection: the responses in order, the counters afterwards
    (the connection is no longer active), and the line after QUIT left
    unread. *)
Example handleConn_session :
  handleConn upperUnmapped marshalBlank
    [(0, nl "KV/1.0 PUT k v"); (0, String LF EmptyString);
     (1, nl "KV/1.0 get k"); (1, nl "KV/1.0 DEL k"); (2, nl "KV/1.0 DEL k");
     (2, nl "KV/1.0 nop"); (3, nl "KV/1.0 quit"); (4, nl "KV/1.0 PUT a b")]
    (newServer DefaultAddr 0)
  = ({| sv_addr := DefaultAddr;
        sv_store := newStore;
        sv_stats := {| StartTime := 0; TotalConns := 1; ActiveConns := 0;
                       ReqCount := 6; PutCount := 1; GetCount := 1;
                       DelCount := 1 |} |},
     [nl "201 CREATED"; nl "200 OK v"; nl "204 NO_CONTENT";
      nl "404 NOT_FOUND"; nl "400 BAD_REQUEST"; nl "200 OK bye"]).
Proof. vm_compute. reflexivity. Qed.

(** ** The further properties on sample inputs *)

Lemma store_other_keys_witness :
  fst (Store.get "b" (snd (Store.put "a" "1" newStore)))
  = fst (Store.get "b" newStore)
  ∧ fst (Store.get "b" (snd (Store.del "a" newStore)))
    = fst (Store.get "b" newStore).
Proof.
  refine (store_other_keys newStore "a" "b" "1" _).
  intros H. discriminate H.
Defined.

Lemma put_del_roundtrip_witness :
  Store.del "a" (snd (Store.put "a" "1" newStore)) = (true, newStore).
Proof.
  refine (put_del_roundtrip newStore "a" "1" _). reflexivity.
Defined.

Lemma unknown_command_witness :
  handleLine upperUnmapped marshalBlank 0 (newServer DefaultAddr 0)
    (nl "KV/1.0 PING now")
  = (incr FReqCount 1 (newServer DefaultAddr 0),
     [nl "400 BAD_REQUEST"], Continue).
Proof.
  refine (unknown_command upperUnmapped marshalBlank 0
            (newServer DefaultAddr 0) (nl "KV/1.0 PING now") "PING" ["now"]
            _ _ _ _ _ _);
    [reflexivity | intros H; vm_compute in H; discriminate H ..].
Defined.

Lemma command_case_insensitive_witness :
  handleLine upperUnmapped marshalBlank 0 (newServer DefaultAddr 0)
    (nl "KV/1.0 pUt k v")
  = handleLine upperUnmapped marshalBlank 0 (newServer DefaultAddr 0)
      (nl "KV/1.0 PUT k v").
Proof.
  refine (proj1 (command_case_insensitive upperUnmapped marshalBlank 0
                   (newServer DefaultAddr 0) (nl "KV/1.0 pUt k v")
                   (nl "KV/1.0 PUT k v") Version "pUt" "PUT" ["k"; "v"]
                   _ _ _)); reflexivity.
Defined.

Lemma stats_counts_itself_witness :
  ∃ snap : gmap string any,
    handleLine upperUnmapped marshalBlank 7 (newServer DefaultAddr 0)
      (nl "KV/1.0 stats")
    = (incr FReqCount 1 (newServer DefaultAddr 0),
       [nl ("200 OK " +:+ marshalBlank snap)], Continue)
    ∧ snap !! "req_count"%string = Some (AInt64 (wrap64 (0 + 1)))
    ∧ snap !! "keys"%string = Some (AInt (Z.of_nat (base.size (∅ : gmap string string))))
    ∧ snap !! "uptime_sec"%string = Some (AInt 7)
    ∧ snap !! "version"%string = Some (AString Version)
    ∧ snap !! "total_conns"%string = Some (AInt64 0)
    ∧ snap !! "active_conns"%string = Some (AInt64 0)
    ∧ base.size snap = 9%nat.
Proof.
  refine (stats_counts_itself upperUnmapped marshalBlank 7
            (newServer DefaultAddr 0) (nl "KV/1.0 stats") "stats" _ _);
    reflexivity.
Defined.

Lemma requests_counted_witness :
  ReqCount (sv_stats (fst (serve upperUnmapped marshalBlank
     [(0, nl "KV/1.0 PUT a 1"); (1, String LF EmptyString);
      (2, nl "bogus"); (3, nl "KV/1.0 GET a")]
     (newServer DefaultAddr 0))))
  = countIf (fun e => nonBlank (fst e))
      (snd (serve upperUnmapped marshalBlank
         [(0, nl "KV/1.0 PUT a 1"); (1, String LF EmptyString);
          (2, nl "bogus"); (3, nl "KV/1.0 GET a")]
         (newServer DefaultAddr 0))).
Proof.
  refine (proj1 (proj2
    (requests_counted upperUnmapped marshalBlank DefaultAddr 0
       [(0, nl "KV/1.0 PUT a 1"); (1, String LF EmptyString);
        (2, nl "bogus"); (3, nl "KV/1.0 GET a")] _ _ _ _))).
  - apply surjective_pairing.
  - vm_compute. reflexivity.
Defined.

Lemma store_is_replay_witness :
  snd (fst (handleLine upperUnmapped marshalBlank 9
              (fst (serve upperUnmapped marshalBlank
                      [(0, nl "KV/1.0 PUT a 1"); (1, nl "KV/1.0 PUT b 2");
                       (2, nl "KV/1.0 DEL a"); (3, nl "KV/1.0 PUT a 3")]
                      (newServer DefaultAddr 0)))
              (nl "KV/1.0 GET a")))
  = [nl "200 OK 3"].
Proof.
  refine (proj2
    (store_is_replay upperUnmapped marshalBlank DefaultAddr 0 9
       [(0, nl "KV/1.0 PUT a 1"); (1, nl "KV/1.0 PUT b 2");
        (2, nl "KV/1.0 DEL a"); (3, nl "KV/1.0 PUT a 3")]
       _
       (snd (serve upperUnmapped marshalBlank
               [(0, nl "KV/1.0 PUT a 1"); (1, nl "KV/1.0 PUT b 2");
                (2, nl "KV/1.0 DEL a"); (3, nl "KV/1.0 PUT a 3")]
               (newServer DefaultAddr 0)))
       (nl "KV/1.0 GET a") "GET" "a" _ _ _)).
  - apply surjective_pairing.
  - reflexivity.
  - reflexivity.
Defined.

Lemma handleConn_accounting_witness :
  TotalConns (sv_stats (fst (handleConn upperUnmapped marshalBlank
     [(0, nl "KV/1.0 PUT a 1"); (1, nl "KV/1.0 QUIT")]
     (newServer DefaultAddr 0))))
  = wrap64 (0 + 1)
  ∧ ActiveConns (sv_stats (fst (handleConn upperUnmapped marshalBlank
       [(0, nl "KV/1.0 PUT a 1"); (1, nl "KV/1.0 QUIT")]
       (newServer DefaultAddr 0))))
    = 0.
Proof.
  pose proof (handleConn_accounting upperUnmapped marshalBlank
                [(0, nl "KV/1.0 PUT a 1"); (1, nl "KV/1.0 QUIT")]
                (newServer DefaultAddr 0)) as H.
  destruct H as (Ht & Ha & _); [simpl; lia|].
  split; [exact Ht|exact Ha].
Defined.

Lemma quit_ends_connection_witness :
  connLoop upperUnmapped marshalBlank
    ([(0, nl "KV/1.0 PUT a 1")] ++ (1, nl "KV/1.0 quit")
       :: [(2, nl "KV/1.0 PUT b 2")])
    (newServer DefaultAddr 0)
  = connLoop upperUnmapped marshalBlank
      ([(0, nl "KV/1.0 PUT a 1")] ++ [(1, nl "KV/1.0 quit")])
      (newServer DefaultAddr 0).
Proof.
  refine (proj1 (quit_ends_connection upperUnmapped marshalBlank
                   [(0, nl "KV/1.0 PUT a 1")] [(2, nl "KV/1.0 PUT b 2")]
                   (newServer DefaultAddr 0) 1 (nl "KV/1.0 quit") "quit" []
                   _ _)); reflexivity.
Defined.

(** A key with a byte outside ASCII (195, 169: U+00E9) and a value. *)
Lemma wire_roundtrip_witness :
  snd (connLoop upperUnmapped marshalBlank
         [(0, nl ("KV/1.0 PUT " +:+ String "c" (String "195" (String "169"
                    EmptyString)) +:+ " " +:+ "42"));
          (1, nl ("KV/1.0 GET " +:+ String "c" (String "195" (String "169"
                    EmptyString))))]
         (newServer DefaultAddr 0))
  = [nl "201 CREATED"; nl "200 OK 42"].
Proof.
  refine (proj2 (wire_roundtrip upperUnmapped marshalBlank 0 1
                   (newServer DefaultAddr 0)
                   (String "c" (String "195" (String "169" EmptyString)))
                   "42" _ _)); reflexivity.
Defined.

Lemma stream_framing_witness :
  readLines (concatStrings (map nl ["KV/1.0 PUT a 1"; "KV/1.0 GET a"])
             +:+ "KV/1.0 DEL a") EmptyString
  = map nl ["KV/1.0 PUT a 1"; "KV/1.0 GET a"].
Proof.
  refine (proj1 (proj2
    (stream_framing upperUnmapped marshalBlank (fun i => Z.of_nat i)
       ["KV/1.0 PUT a 1"; "KV/1.0 GET a"] "KV/1.0 DEL a"
       (newServer DefaultAddr 0) _ _))); reflexivity.
Defined.

Lemma client_request_accepted_witness :
  readLines (nl "KV/1.0 GET x") EmptyString = [nl "KV/1.0 GET x"]
  ∧ tokensOf (nl "KV/1.0 GET x") = Version :: tokensOf "GET x"
  ∧ ∃ r : string,
      snd (fst (handleLine upperUnmapped marshalBlank 0
                  (newServer DefaultAddr 0) (nl "KV/1.0 GET x"))) = [r]
      ∧ r ≠ nl "426 UPGRADE_REQUIRED"
      ∧ ReqCount (sv_stats (fst (fst
          (handleLine upperUnmapped marshalBlank 0
             (newServer DefaultAddr 0) (nl "KV/1.0 GET x")))))
        = wrap64 (0 + 1).
Proof.
  refine (client_request_accepted upperUnmapped marshalBlank (fun s => s)
            "GET x" (nl "KV/1.0 GET x") 0 (newServer DefaultAddr 0) _ _);
    reflexivity.
Defined.

Lemma error_answers_no_effect_witness :
  handleLine upperUnmapped marshalBlank 0 (newServer DefaultAddr 0)
    (nl "KV/1.0 DEL nothing")
  = (incr FReqCount 1 (newServer DefaultAddr 0),
     [nl "404 NOT_FOUND"], Continue).
Proof.
  refine (error_answers_no_effect upperUnmapped marshalBlank 0
            (newServer DefaultAddr 0) (nl "KV/1.0 DEL nothing")
            (nl "404 NOT_FOUND") _ _); reflexivity.
Defined.
